(** * Ingest connectors: fsspec-backed cloud stores and OneDrive

    A shallow embedding of [unstructured/ingest/connector/s3_2.py] (the
    fsspec configuration, ingest document, source and destination
    connectors) and of [unstructured/ingest/connector/onedrive.py] (the
    OneDrive ingest document and connector), followed by the properties
    of the ingestion design that were checked against them.

    Conventions.
    - A Python [str] is a [string]; only code points below 256 are
      represented, one [ascii] per code point.
    - A Python exception is a value of [exn]; a call that may raise
      returns a [result].
    - The remote backend (the fsspec filesystem, the Graph client) and the
      tables that live outside the connector modules are parameters of
      the definitions that use them. *)

From Stdlib Require Import Ascii String ZArith Bool Lia.
From Stdlib Require DecimalString.
From stdpp Require Import base option list gmap strings.

Local Open Scope Z_scope.

(** ** Exceptions and results *)

Inductive exn : Type :=
| ValueError (msg : string)
| IndexError (msg : string)
| OSError (msg : string)
| BackendError (msg : string)
| SourceConnectionError (cause : exn).

Inductive result (A : Type) : Type :=
| Ok (a : A)
| Raise (e : exn).

Arguments Ok {A} a.
Arguments Raise {A} e.

Definition bind {A B : Type} (r : result A) (k : A -> result B) : result B :=
  match r with
  | Ok a => k a
  | Raise e => Raise e
  end.

Notation "x <-! r ;; k" := (bind r (fun x => k))
  (at level 100, r at next level, right associativity).

Definition is_ok {A : Type} (r : result A) : bool :=
  match r with Ok _ => true | Raise _ => false end.

(** ** Python string operations *)

Module PyStr.

Definition slash : ascii := "/"%char.
Definition dot : ascii := "."%char.

Definition is_slash (c : ascii) : bool := Ascii.eqb c slash.
Definition is_dot (c : ascii) : bool := Ascii.eqb c dot.

(** [\s] of the [re] module on a [str] pattern, for code points below
    256: TAB, LF, VT, FF, CR, the separators 0x1C-0x1F, SPACE, NEL
    (0x85) and NBSP (0xA0). *)
Definition is_space (c : ascii) : bool :=
  let n := N_of_ascii c in
  ((9 <=? n) && (n <=? 13) || (28 <=? n) && (n <=? 32)
   || (n =? 133) || (n =? 160))%N.

Definition nonempty (s : string) : bool :=
  match s with EmptyString => false | String _ _ => true end.

Definition nodot (c : ascii) : bool := negb (is_dot c).

Fixpoint str_all (p : ascii -> bool) (s : string) : bool :=
  match s with
  | EmptyString => true
  | String c s' => p c && str_all p s'
  end.

(** [s.startswith(p)] *)
Fixpoint startswith (p s : string) : bool :=
  match p with
  | EmptyString => true
  | String a p' =>
      match s with
      | EmptyString => false
      | String b s' => Ascii.eqb a b && startswith p' s'
      end
  end.

(** The text after a literal prefix, when [s] starts with it. *)
Fixpoint strip_literal (p s : string) : option string :=
  match p with
  | EmptyString => Some s
  | String a p' =>
      match s with
      | EmptyString => None
      | String b s' => if Ascii.eqb a b then strip_literal p' s' else None
      end
  end.

(** [sub in s] *)
Fixpoint contains (sub s : string) : bool :=
  startswith sub s ||
  match s with
  | EmptyString => false
  | String _ s' => contains sub s'
  end.

(** The longest prefix whose characters satisfy [p], and the rest. *)
Fixpoint span (p : ascii -> bool) (s : string) : string * string :=
  match s with
  | EmptyString => (EmptyString, EmptyString)
  | String c s' =>
      if p c then let '(a, b) := span p s' in (String c a, b)
      else (EmptyString, s)
  end.

(** [s.replace(old, new)] for a non-empty [old]: the occurrences of
    [old] are found from the left and do not overlap. [skip] counts the
    characters of the current occurrence still to be passed over. *)
Fixpoint replace_from (old new : string) (skip : nat) (s : string) : string :=
  match s with
  | EmptyString => EmptyString
  | String c s' =>
      match skip with
      | S k => replace_from old new k s'
      | O =>
          if startswith old s
          then new +:+ replace_from old new (Nat.pred (String.length old)) s'
          else String c (replace_from old new O s')
      end
  end.

(** [s.replace(old, new)] for the empty [old]: [new] is put before
    every character and at the end. *)
Fixpoint intersperse_all (new s : string) : string :=
  match s with
  | EmptyString => new
  | String c s' => new +:+ String c (intersperse_all new s')
  end.

Definition replace (s old new : string) : string :=
  match old with
  | EmptyString => intersperse_all new s
  | String _ _ => replace_from old new O s
  end.

(** [s.split(sep)] for a non-empty [sep], as the first piece and the
    remaining pieces. *)
Fixpoint split_from (sep : string) (skip : nat) (s : string) : string * list string :=
  match s with
  | EmptyString => (EmptyString, [])
  | String c s' =>
      match skip with
      | S k => split_from sep k s'
      | O =>
          if startswith sep s
          then (EmptyString,
                let '(h, t) := split_from sep (Nat.pred (String.length sep)) s' in h :: t)
          else let '(h, t) := split_from sep O s' in (String c h, t)
      end
  end.

Definition split (s sep : string) : list string :=
  let '(h, t) := split_from sep O s in h :: t.

(** [sep.join(pieces)] *)
Fixpoint join (sep : string) (pieces : list string) : string :=
  match pieces with
  | [] => EmptyString
  | [x] => x
  | x :: rest => x +:+ sep +:+ join sep rest
  end.

(** [s[:-n]] for [n > 0]: all but the last [n] characters. *)
Definition drop_last (n : nat) (s : string) : string :=
  String.substring 0 (String.length s - n)%nat s.

(** [s[-1]] *)
Fixpoint last_char (s : string) : option ascii :=
  match s with
  | EmptyString => None
  | String c EmptyString => Some c
  | String _ s' => last_char s'
  end.

(** [s.lstrip(".")] *)
Fixpoint lstrip_dots (s : string) : string :=
  match s with
  | String c s' => if is_dot c then lstrip_dots s' else s
  | EmptyString => EmptyString
  end.

(** [s.rfind(".")], as the text from the last dot on and its index. *)
Fixpoint rfind_dot (s : string) : option (nat * string) :=
  match s with
  | EmptyString => None
  | String c s' =>
      match rfind_dot s' with
      | Some (i, t) => Some (S i, t)
      | None => if is_dot c then Some (O, s) else None
      end
  end.

End PyStr.

(** ** [pathlib] pure POSIX paths *)

Module PurePath.

(** A parsed path: the root (empty, one separator or two) and the
    components below it. Empty components and single dots never appear
    among [parts]. *)
Record t : Type := mk { root : string; parts : list string }.

(** [splitroot]: exactly two leading separators are kept as they are,
    any other number of them is the root of one separator. *)
Definition splitroot (s : string) : string * string :=
  let '(seps, rel) := PyStr.span PyStr.is_slash s in
  match String.length seps with
  | O => (EmptyString, rel)
  | 2%nat => ("//", rel)
  | _ => ("/", rel)
  end.

Definition keep_component (x : string) : bool :=
  PyStr.nonempty x && negb (String.eqb x ".").

(** [Path(s)] *)
Definition of_string (s : string) : t :=
  let '(r, rel) := splitroot s in
  mk r (filter (fun x => Is_true (keep_component x)) (PyStr.split rel "/")).

(** [a / s]: a rooted right operand replaces the left one. *)
Definition truediv (a : t) (s : string) : t :=
  let b := of_string s in
  if PyStr.nonempty (root b) then b
  else mk (root a) (parts a ++ parts b).

(** [str(p)], also [p.as_posix()] *)
Definition to_string (p : t) : string :=
  match root p, parts p with
  | EmptyString, [] => "."
  | r, ps => r +:+ PyStr.join "/" ps
  end.

(** [p.name] *)
Definition name (p : t) : string := List.last (parts p) EmptyString.

(** [p.parent] *)
Definition parent (p : t) : t := mk (root p) (removelast (parts p)).

(** [p.suffix]: the text from the last dot of the name on, unless that
    dot is the first or the last character of the name. *)
Definition suffix (p : t) : string :=
  match PyStr.rfind_dot (name p) with
  | Some (S i, String _ (String c rest)) => String PyStr.dot (String c rest)
  | _ => EmptyString
  end.

(** [p.suffixes] *)
Definition suffixes (p : t) : list string :=
  let nm := name p in
  match PyStr.last_char nm with
  | Some c =>
      if PyStr.is_dot c then []
      else map (String PyStr.dot) (List.tl (PyStr.split (PyStr.lstrip_dots nm) "."))
  | None => []
  end.

(** [p.with_suffix(sfx)] for a path that has a name. *)
Definition with_suffix (p : t) (sfx : string) : result t :=
  let nm := name p in
  if PyStr.nonempty nm then
    let old := suffix p in
    let nm' :=
      if PyStr.nonempty old
      then PyStr.drop_last (String.length old) nm +:+ sfx
      else nm +:+ sfx in
    Ok (mk (root p) (removelast (parts p) ++ [nm']))
  else Raise (ValueError "has an empty name").

(** The path itself and the directories above it, outermost first. *)
Definition lineage (p : t) : list t :=
  map (fun k => mk (root p) (take k (parts p))) (seq 1 (List.length (parts p))).

(** A relative path in normal form: split at the separators, it has no
    empty component and no component that is a single dot. *)
Definition is_normal (s : string) : bool :=
  forallb keep_component (PyStr.split s "/").

End PurePath.

(** ** The fsspec connector ([s3_2.py]) *)

Module Fsspec.

Definition SUPPORTED_REMOTE_FSSPEC_PROTOCOLS : list string :=
  ["s3"; "s3a"; "abfs"; "az"; "gs"; "gcs"; "box"; "dropbox"].

(** *** [SimpleFsspecConfig] *)

Record SimpleFsspecConfig : Type := mkConfig {
  path : string;
  recursive : bool;
  access_kwargs : gmap string string;
  protocol : string;
  path_without_protocol : string;
  dir_path : string;
  file_path : string
}.

(** A character of [[^/\s]]. *)
Definition is_dir_char (c : ascii) : bool :=
  negb (PyStr.is_slash c) && negb (PyStr.is_space c).

(** A character of [[^\s]]. *)
Definition is_file_char (c : ascii) : bool := negb (PyStr.is_space c).

(** [$]: the end of the string, or just before a line feed that ends
    the string. *)
Definition at_end (s : string) : bool :=
  match s with
  | EmptyString => true
  | String c EmptyString => Ascii.eqb c "010"%char
  | _ => false
  end.

(** [re.match] of [path] against the pattern made of the protocol,
    [://], the group [([\s])] and one separator: group 1 of the match.
    [re.match] anchors the pattern at the start of [path] only. *)
Definition match_empty_root (protocol path : string) : option string :=
  match PyStr.strip_literal (protocol +:+ "://") path with
  | Some (String c (String d _)) =>
      if PyStr.is_space c && PyStr.is_slash d
      then Some (String c EmptyString) else None
  | _ => None
  end.

(** [re.match] of [path] against the pattern made of the protocol,
    [://], the lazy group [([^/\s]+?)], a group of zero or more
    separators and [$]: groups 1 and 2. Group 1 cannot hold a separator
    and must be followed by one or by the end, so the lazy [+?] stops
    exactly where the run of [[^/\s]] characters stops; the second
    group then takes every separator, since [$] cannot match before
    one. *)
Definition match_root_only (protocol path : string) : option (string * string) :=
  match PyStr.strip_literal (protocol +:+ "://") path with
  | Some rest =>
      let '(name, after) := PyStr.span is_dir_char rest in
      let '(seps, tl) := PyStr.span PyStr.is_slash after in
      if PyStr.nonempty name && at_end tl then Some (name, seps) else None
  | None => None
  end.

(** [re.match] of [path] against the pattern made of the protocol,
    [://], the lazy group [([^/\s]+?)], one separator and the greedy
    group of zero or more [[^\s]]: groups 1 and 2. Group 1 again ends
    where the run of [[^/\s]] characters ends, where a separator must
    follow; group 2 is the longest run of non-space characters after
    it. *)
Definition match_dir_file (protocol path : string) : option (string * string) :=
  match PyStr.strip_literal (protocol +:+ "://") path with
  | Some rest =>
      let '(name, after) := PyStr.span is_dir_char rest in
      match after with
      | String c tl =>
          if PyStr.nonempty name && PyStr.is_slash c
          then Some (name, fst (PyStr.span is_file_char tl)) else None
      | EmptyString => None
      end
  | None => None
  end.

(** [__post_init__], from the three fields the caller passes. *)
Definition __post_init__ (path : string) (recursive : bool)
    (access_kwargs : gmap string string) : result SimpleFsspecConfig :=
  match PyStr.split path "://" with
  | [protocol; path_without_protocol] =>
      let config := mkConfig path recursive access_kwargs protocol path_without_protocol in
      if decide (protocol ∈ SUPPORTED_REMOTE_FSSPEC_PROTOCOLS) then
        match match_empty_root protocol path, String.eqb protocol "dropbox" with
        | Some _, true => Ok (config " " EmptyString)
        | _, _ =>
            match match_root_only protocol path with
            | Some (g1, _) => Ok (config g1 EmptyString)
            | None =>
                match match_dir_file protocol path with
                | Some (g1, g2) => Ok (config g1 g2)
                | None =>
                    Raise (ValueError ("Invalid path " +:+ path +:+
                      ". Expected <protocol>://<dir-path>/<file-or-dir-path>."))
                end
            end
        end
      else
        Raise (ValueError ("Protocol " +:+ protocol +:+ " not supported yet, only "
          +:+ "['s3', 's3a', 'abfs', 'az', 'gs', 'gcs', 'box', 'dropbox']"
          +:+ " are supported."))
  | [_] => Raise (ValueError "not enough values to unpack (expected 2, got 1)")
  | _ => Raise (ValueError "too many values to unpack (expected 2)")
  end.

(** *** [FsspecIngestDoc] *)

Record ReadConfig : Type := { download_dir : option string }.
Record PartitionConfig : Type := { output_dir : string }.

Record FsspecIngestDoc : Type := mkDoc {
  read_config : ReadConfig;
  partition_config : PartitionConfig;
  connector_config : SimpleFsspecConfig;
  remote_file_path : string
}.

(** [self.remote_file_path.replace(d, e)] with [d] the directory
    followed by one separator and [e] the empty string. *)
Definition relative_path (doc : FsspecIngestDoc) : string :=
  PyStr.replace (remote_file_path doc)
    (dir_path (connector_config doc) +:+ "/") EmptyString.

Definition _tmp_download_file (doc : FsspecIngestDoc) : PurePath.t :=
  let download_dir :=
    match download_dir (read_config doc) with
    | Some d => if PyStr.nonempty d then d else EmptyString
    | None => EmptyString
    end in
  PurePath.truediv (PurePath.of_string download_dir) (relative_path doc).

Definition _output_filename (doc : FsspecIngestDoc) : PurePath.t :=
  PurePath.truediv (PurePath.of_string (output_dir (partition_config doc)))
    (relative_path doc +:+ ".json").

Definition filename (doc : FsspecIngestDoc) : PurePath.t := _tmp_download_file doc.

(** *** The local filesystem and the remote backend *)

(** The part of the local filesystem the connector touches: regular
    files with their content, the directories that were made, and the
    log of the remote paths requested of the backend, latest last. *)
Record world : Type := mkWorld {
  files : gmap string string;
  dirs : gset string;
  transfers : list string
}.

(** An action on the world that may raise. *)
Definition M (A : Type) : Type := world -> result A * world.

Definition ret {A : Type} (a : A) : M A := fun w => (Ok a, w).
Definition bindM {A B : Type} (m : M A) (k : A -> M B) : M B :=
  fun w =>
    match m w with
    | (Ok a, w') => k a w'
    | (Raise e, w') => (Raise e, w')
    end.

(** One entry of a listing with [detail=True]. *)
Record entry : Type := mkEntry { name : string; size : Z }.

(** The answers of the fsspec filesystem object: [ls] and [find] with
    their entries in the order the backend gives them, the content
    [get] downloads, what a [get] that raises has written at the local
    path by then (nothing, or a part of the content), and the outcome of
    [put_file] for a local and a remote path. *)
Record AbstractFileSystem : Type := mkFs {
  ls : string -> result (list entry);
  find : string -> result (list (string * entry));
  get : string -> result string;
  left_behind : string -> option string;
  put_file : string -> string -> result unit
}.

(** [p.mkdir(parents=True, exist_ok=True)]: every missing directory on
    the way is made; a regular file on the way is an error. *)
Fixpoint mkdir_each (ps : list PurePath.t) : M unit :=
  match ps with
  | [] => ret tt
  | p :: rest =>
      fun w =>
        let key := PurePath.to_string p in
        match files w !! key with
        | Some _ => (Raise (OSError ("File exists: " +:+ key)), w)
        | None => mkdir_each rest (mkWorld (files w) ({[ key ]} ∪ dirs w) (transfers w))
        end
  end.

Definition mkdir_parents (p : PurePath.t) : M unit := mkdir_each (PurePath.lineage p).

Definition _create_full_tmp_dir_path (doc : FsspecIngestDoc) : M unit :=
  mkdir_parents (PurePath.parent (_tmp_download_file doc)).

(** [fs.get(rpath=..., lpath=...)]: the backend is asked for [rpath];
    what it returns becomes the content of [lpath]. The filesystem
    object writes the local file itself: when it raises, [lpath] is as
    it was or holds the part written by then. *)
Definition fs_get (fs : AbstractFileSystem) (rpath lpath : string) : M unit :=
  fun w =>
    let w' := mkWorld (files w) (dirs w) (transfers w ++ [rpath]) in
    match get fs rpath with
    | Ok content => (Ok tt, mkWorld (<[ lpath := content ]> (files w')) (dirs w') (transfers w'))
    | Raise e =>
        (Raise e,
         mkWorld (match left_behind fs rpath with
                  | Some part => <[ lpath := part ]> (files w')
                  | None => files w'
                  end) (dirs w') (transfers w'))
    end.

(** Modelled from the spec: the decorator [BaseIngestDoc.skip_if_file_exists]
    of [unstructured/ingest/interfaces2.py], which is not among the
    sources. The wrapped function is skipped when the local download
    path already exists and is not empty. *)
Definition skip_if_file_exists (func : FsspecIngestDoc -> M unit)
    (doc : FsspecIngestDoc) : M unit :=
  fun w =>
    match files w !! PurePath.to_string (filename doc) with
    | Some content => if PyStr.nonempty content then (Ok tt, w) else func doc w
    | None => func doc w
    end.

(** Modelled from the spec: the decorator [SourceConnectionError.wrap]
    of [unstructured/ingest/error.py], which is not among the sources.
    Whatever the wrapped function raises is raised again as a
    [SourceConnectionError]. *)
Definition SourceConnectionError_wrap (func : FsspecIngestDoc -> M unit)
    (doc : FsspecIngestDoc) : M unit :=
  fun w =>
    match func doc w with
    | (Raise e, w') => (Raise (SourceConnectionError e), w')
    | (Ok a, w') => (Ok a, w')
    end.

(** The body of [get_file], below its decorators. *)
Definition get_file_body (fs : AbstractFileSystem) (doc : FsspecIngestDoc) : M unit :=
  bindM (_create_full_tmp_dir_path doc) (fun _ =>
    fs_get fs (remote_file_path doc) (PurePath.to_string (_tmp_download_file doc))).

Definition get_file (fs : AbstractFileSystem) : FsspecIngestDoc -> M unit :=
  SourceConnectionError_wrap (skip_if_file_exists (get_file_body fs)).

(** *** [FsspecSourceConnector] *)

Definition initialize (fs : AbstractFileSystem) (connector_config : SimpleFsspecConfig)
    : result unit :=
  ls_output <-! ls fs (path_without_protocol connector_config) ;;
  if Z.of_nat (List.length ls_output) <? 1
  then Raise (ValueError ("No objects found in " +:+ path connector_config +:+ "."))
  else Ok tt.

Definition _list_files (fs : AbstractFileSystem) (connector_config : SimpleFsspecConfig)
    : result (list string) :=
  if negb (recursive connector_config) then
    listing <-! ls fs (path_without_protocol connector_config) ;;
    Ok (map name (filter (fun x => size x > 0) listing))
  else
    found <-! find fs (path_without_protocol connector_config) ;;
    Ok (map fst (filter (fun kv => size (snd kv) > 0) found)).

Definition get_ingest_docs (fs : AbstractFileSystem) (read_config : ReadConfig)
    (connector_config : SimpleFsspecConfig) (partition_config : PartitionConfig)
    : result (list FsspecIngestDoc) :=
  listed <-! _list_files fs connector_config ;;
  Ok (map (mkDoc read_config partition_config connector_config) listed).

(** *** [FsspecDestinationConnector] *)

(** The remote path [write] computes for one document
    ([s3_output_path]); indexing an empty string raises. *)
Definition s3_output_path (connector_config : SimpleFsspecConfig)
    (doc : FsspecIngestDoc) : result string :=
  let s3_file_path :=
    PyStr.replace (PurePath.to_string (_output_filename doc))
      (output_dir (partition_config doc)) (path connector_config) in
  let s3_folder := path connector_config in
  match PyStr.last_char s3_folder with
  | None => Raise (IndexError "string index out of range")
  | Some c =>
      let s3_folder :=
        if negb (PyStr.is_slash c) then s3_file_path +:+ "/" else s3_folder in
      match s3_file_path with
      | EmptyString => Raise (IndexError "string index out of range")
      | String c0 rest =>
          let s3_file_path := if PyStr.is_slash c0 then rest else s3_file_path in
          Ok (s3_folder +:+ s3_file_path)
      end
  end.

(** The loop of [write]; [uploaded] collects the local and remote path
    of every [put_file] that returned, in order. *)
Fixpoint write_from (fs : AbstractFileSystem) (connector_config : SimpleFsspecConfig)
    (docs : list FsspecIngestDoc) (uploaded : list (string * string))
    : result unit * list (string * string) :=
  match docs with
  | [] => (Ok tt, uploaded)
  | doc :: rest =>
      match s3_output_path connector_config doc with
      | Raise e => (Raise e, uploaded)
      | Ok rpath =>
          let lpath := PurePath.to_string (_output_filename doc) in
          match put_file fs lpath rpath with
          | Raise e => (Raise e, uploaded)
          | Ok _ => write_from fs connector_config rest (uploaded ++ [(lpath, rpath)])
          end
      end
  end.

Definition write (fs : AbstractFileSystem) (connector_config : SimpleFsspecConfig)
    (docs : list FsspecIngestDoc) : result unit * list (string * string) :=
  write_from fs connector_config docs [].

End Fsspec.

(** ** The OneDrive connector ([onedrive.py]) *)

Module OneDrive.

(** The two directories of [StandardConnectorConfig] the document
    reads. *)
Record StandardConnectorConfig : Type := {
  download_dir : string;
  output_dir : string
}.

Record SimpleOneDriveConfig : Type := {
  client_id : string;
  client_credential : string;
  user_pname : string;
  tenant : string;
  authority_url : option string;
  path : option string;
  recursive : bool
}.

(** The attributes of a constructed [OneDriveIngestDoc]:
    [self_download_dir] and [self_output_dir] are the attributes
    [download_dir] and [output_dir] set by [_set_download_paths]. *)
Record OneDriveIngestDoc : Type := mkDoc {
  standard_config : StandardConnectorConfig;
  config : SimpleOneDriveConfig;
  file_name : string;
  file_path : string;
  ext : string;
  server_relative_path : string;
  self_download_dir : PurePath.t;
  download_filepath : PurePath.t;
  self_output_dir : PurePath.t;
  output_filepath : PurePath.t
}.

(** A drive item as the Graph client returns it: its name, the path of
    its parent reference, whether it is a file or a folder, and the
    children the backend lists for it. *)
#[warnings="-register-all"] Inductive DriveItem : Type :=
| mkItem (name : string) (parent_reference_path : string)
    (is_file is_folder : bool) (children : list DriveItem).

Definition name (d : DriveItem) : string :=
  match d with mkItem n _ _ _ _ => n end.
Definition parent_reference_path (d : DriveItem) : string :=
  match d with mkItem _ p _ _ _ => p end.
Definition is_file (d : DriveItem) : bool :=
  match d with mkItem _ _ b _ _ => b end.
Definition is_folder (d : DriveItem) : bool :=
  match d with mkItem _ _ _ b _ => b end.
Definition children (d : DriveItem) : list DriveItem :=
  match d with mkItem _ _ _ _ cs => cs end.

(** The Graph client of a user: the root of the drive and the lookup of
    an item by path below an item. *)
Record GraphClient : Type := {
  drive_root : DriveItem;
  get_by_path : DriveItem -> string -> option DriveItem
}.

(** [[f(x) for x in xs]] where [f] may raise: the first exception ends
    the comprehension. *)
Fixpoint comprehension {A B : Type} (f : A -> result B) (xs : list A) : result (list B) :=
  match xs with
  | [] => Ok []
  | x :: rest =>
      y <-! f x ;;
      ys <-! comprehension f rest ;;
      Ok (y :: ys)
  end.

(** The joined suffixes of the file name, [self.ext]. *)
Definition ext_of (file_name : string) : string :=
  PyStr.join EmptyString (PurePath.suffixes (PurePath.of_string file_name)).

Section Connector.

(** The string keys of the table [EXT_TO_FILETYPE] of
    [unstructured/file_utils/filetype.py], in the order of the
    table. *)
Variable EXT_TO_FILETYPE : list string.

(** [Path.resolve()]: it depends on the working directory and on the
    links of the local filesystem. *)
Variable resolve : PurePath.t -> PurePath.t.

(** [__post_init__] followed by [_set_download_paths]. *)
Definition __post_init__ (standard_config : StandardConnectorConfig)
    (config : SimpleOneDriveConfig) (file_name file_path : string)
    : result OneDriveIngestDoc :=
  let ext := ext_of file_name in
  if negb (PyStr.nonempty ext) then
    Raise (ValueError "Unsupported file without extension.")
  else if decide (ext ∈ EXT_TO_FILETYPE) then
    let server_relative_path := file_path +:+ "/" +:+ file_name in
    let download_path := PurePath.of_string (download_dir standard_config) in
    let output_path := PurePath.of_string (output_dir standard_config) in
    let download_path :=
      if PyStr.nonempty file_path
      then resolve (PurePath.truediv download_path file_path)
      else download_path in
    let output_path :=
      if PyStr.nonempty file_path
      then resolve (PurePath.truediv output_path file_path)
      else output_path in
    let oname := PyStr.drop_last (String.length ext) file_name +:+ ".json" in
    Ok (mkDoc standard_config config file_name file_path ext server_relative_path
          download_path (resolve (PurePath.truediv download_path file_name))
          output_path (resolve (PurePath.truediv output_path oname)))
  else
    Raise (ValueError ("Extension not supported. Value MUST be one of "
             +:+ PyStr.join ", " EXT_TO_FILETYPE +:+ ".")).

Fixpoint _list_objects (folder : DriveItem) (recursive : bool) : list DriveItem :=
  match folder with
  | mkItem _ _ _ _ drive_items =>
      let files := List.filter is_file drive_items in
      if negb recursive then files
      else
        files ++
        (fix walk (ds : list DriveItem) : list DriveItem :=
           match ds with
           | [] => []
           | d :: rest =>
               if is_folder d then _list_objects d recursive ++ walk rest
               else walk rest
           end) drive_items
  end.

Definition _gen_ingest_doc (standard_config : StandardConnectorConfig)
    (config : SimpleOneDriveConfig) (file : DriveItem) : result OneDriveIngestDoc :=
  let file_path := List.last (PyStr.split (parent_reference_path file) ":") EmptyString in
  match file_path with
  | EmptyString => Raise (IndexError "string index out of range")
  | String c rest =>
      let file_path := if PyStr.is_slash c then rest else file_path in
      __post_init__ standard_config config (name file) file_path
  end.

(** The folder [get_ingest_docs] lists: the root of the drive, or the
    folder at the configured path when one is given. *)
Definition listing_root (client : GraphClient) (config : SimpleOneDriveConfig)
    : result DriveItem :=
  match path config with
  | Some (String _ _ as fpath) =>
      match get_by_path client (drive_root client) fpath with
      | Some root =>
          if is_folder root then Ok root
          else Raise (ValueError ("Unable to find directory, given: " +:+ fpath))
      | None => Raise (ValueError ("Unable to find directory, given: " +:+ fpath))
      end
  | _ => Ok (drive_root client)
  end.

Definition get_ingest_docs (client : GraphClient)
    (standard_config : StandardConnectorConfig) (config : SimpleOneDriveConfig)
    : result (list OneDriveIngestDoc) :=
  root <-! listing_root client config ;;
  comprehension (_gen_ingest_doc standard_config config)
    (_list_objects root (recursive config)).

End Connector.

End OneDrive.

(** ** The Wikipedia connector ([wikipedia.py]) *)

Module Wikipedia.

Record SimpleWikipediaConfig : Type := {
  title : string;
  auto_suggest : bool
}.

(** What the connector reads of a page of the [wikipedia] package. *)
Record WikipediaPage : Type := {
  page_title : string;
  revision_id : Z;
  html : string;
  content : string;
  summary : string
}.

(** The three classes of documents. *)
Inductive doc_class : Type :=
| WikipediaIngestTextDoc
| WikipediaIngestHTMLDoc
| WikipediaIngestSummaryDoc.

Record WikipediaIngestDoc : Type := mkDoc {
  standard_config : OneDrive.StandardConnectorConfig;
  config : SimpleWikipediaConfig;
  class : doc_class
}.

(** [str(n)] for an integer. *)
Definition str_int (n : Z) : string :=
  DecimalString.NilZero.string_of_int (Z.to_int n).

(** The end of the name of the downloaded file, after the title, a
    hyphen and the revision. *)
Definition download_ending (c : doc_class) : string :=
  match c with
  | WikipediaIngestTextDoc => ".txt"
  | WikipediaIngestHTMLDoc => ".html"
  | WikipediaIngestSummaryDoc => "-summary.txt"
  end.

(** The end of the name of the output file. *)
Definition output_ending (c : doc_class) : string :=
  match c with
  | WikipediaIngestTextDoc => "-txt.json"
  | WikipediaIngestHTMLDoc => "-html.json"
  | WikipediaIngestSummaryDoc => "-summary.json"
  end.

Section Client.

(** [wikipedia.page(title, auto_suggest=...)]: the page, or the error
    of the package. *)
Variable wikipedia_page : string -> bool -> result WikipediaPage.

(** [Path.resolve()] *)
Variable resolve : PurePath.t -> PurePath.t.

(** The property [page]: every access asks the package again. *)
Definition page (doc : WikipediaIngestDoc) : result WikipediaPage :=
  wikipedia_page (title (config doc)) (auto_suggest (config doc)).

Definition filename (doc : WikipediaIngestDoc) : result PurePath.t :=
  p1 <-! page doc ;;
  p2 <-! page doc ;;
  Ok (resolve
        (PurePath.truediv
           (PurePath.of_string (OneDrive.download_dir (standard_config doc)))
           (page_title p1 +:+ "-" +:+ str_int (revision_id p2)
              +:+ download_ending (class doc)))).

Definition text (doc : WikipediaIngestDoc) : result string :=
  p <-! page doc ;;
  Ok (match class doc with
      | WikipediaIngestTextDoc => content p
      | WikipediaIngestHTMLDoc => html p
      | WikipediaIngestSummaryDoc => summary p
      end).

Definition _output_filename (doc : WikipediaIngestDoc) : result PurePath.t :=
  p1 <-! page doc ;;
  p2 <-! page doc ;;
  Ok (PurePath.truediv
        (PurePath.of_string (OneDrive.output_dir (standard_config doc)))
        (page_title p1 +:+ "-" +:+ str_int (revision_id p2)
           +:+ output_ending (class doc))).

End Client.

Definition get_ingest_docs (standard_config : OneDrive.StandardConnectorConfig)
    (config : SimpleWikipediaConfig) : list WikipediaIngestDoc :=
  [mkDoc standard_config config WikipediaIngestTextDoc;
   mkDoc standard_config config WikipediaIngestHTMLDoc;
   mkDoc standard_config config WikipediaIngestSummaryDoc].

End Wikipedia.

(** ** The design's own wording, for comparison with the code *)

Module Design.

(** [strip_prefix(s, p)]: [s] without its leading [p], or [s] itself
    when it does not start with [p]. *)
Definition strip_prefix (s p : string) : string :=
  match PyStr.strip_literal p s with
  | Some rest => rest
  | None => s
  end.

(** The relative suffix of a remote reference: only the leading
    directory and its separator are stripped. *)
Definition relative_suffix (directory remote_reference : string) : string :=
  strip_prefix remote_reference (directory +:+ "/").

(** The download path of the design: the download root joined with the
    relative suffix. *)
Definition download_path (download_root directory remote_reference : string) : PurePath.t :=
  PurePath.truediv (PurePath.of_string download_root)
    (relative_suffix directory remote_reference).

(** The output path of the design: the relative suffix with its
    extension replaced by [.json], rooted at the output root. *)
Definition output_path (output_root directory remote_reference : string) : result PurePath.t :=
  PurePath.with_suffix
    (PurePath.truediv (PurePath.of_string output_root)
       (relative_suffix directory remote_reference))
    ".json".

(** What [write] does for one document taken on its own: the remote
    path is computed and the upload is asked of the backend; the local
    and remote paths are the record of a successful upload. *)
Definition attempt (fs : Fsspec.AbstractFileSystem)
    (connector_config : Fsspec.SimpleFsspecConfig)
    (doc : Fsspec.FsspecIngestDoc) : result (string * string) :=
  let lpath := PurePath.to_string (Fsspec._output_filename doc) in
  rpath <-! Fsspec.s3_output_path connector_config doc ;;
  _ <-! Fsspec.put_file fs lpath rpath ;;
  Ok (lpath, rpath).

(** The location string put together again from its decomposition, an
    empty file component being left out. *)
Definition reconstruct (config : Fsspec.SimpleFsspecConfig) : string :=
  Fsspec.protocol config +:+ "://" +:+ Fsspec.dir_path config +:+
  (if PyStr.nonempty (Fsspec.file_path config)
   then "/" +:+ Fsspec.file_path config else EmptyString).

(** The general case as the design words it, for the location made of a
    protocol, [://], a bucket, a separator and a rest: the location
    resolves to the bucket as directory and to the rest as file, and the
    location put together again from the result resolves to the same
    result. *)
Definition general_case (protocol bucket rest : string) : Prop :=
  exists location,
    Fsspec.__post_init__ (protocol +:+ "://" +:+ bucket +:+ "/" +:+ rest) false ∅
      = Ok location /\
    Fsspec.dir_path location = bucket /\
    Fsspec.file_path location = rest /\
    Fsspec.__post_init__ (reconstruct location) false ∅ = Ok location.

(** The two local paths of a document agree with the design's
    mapping. *)
Definition mapping_agrees (doc : Fsspec.FsspecIngestDoc) : Prop :=
  let directory := Fsspec.dir_path (Fsspec.connector_config doc) in
  let download_root := default EmptyString (Fsspec.download_dir (Fsspec.read_config doc)) in
  let output_root := Fsspec.output_dir (Fsspec.partition_config doc) in
  Fsspec._tmp_download_file doc
    = download_path download_root directory (Fsspec.remote_file_path doc) /\
  Ok (Fsspec._output_filename doc)
    = output_path output_root directory (Fsspec.remote_file_path doc).

(** What the backend reports under the configured root in the
    enumeration mode of the configuration: the name and the size of
    every entry, in the order of the backend. *)
Definition reported (fs : Fsspec.AbstractFileSystem)
    (connector_config : Fsspec.SimpleFsspecConfig) : result (list (string * Z)) :=
  if Fsspec.recursive connector_config then
    found <-! Fsspec.find fs (Fsspec.path_without_protocol connector_config) ;;
    Ok (map (fun kv => (fst kv, Fsspec.size (snd kv))) found)
  else
    listing <-! Fsspec.ls fs (Fsspec.path_without_protocol connector_config) ;;
    Ok (map (fun x => (Fsspec.name x, Fsspec.size x)) listing).

(** Failure isolation of [write] as the design words it: whenever the
    backend accepts the upload of a document of the sequence, that
    upload has happened once [write] is over, whatever became of the
    other documents. *)
Definition uploads_isolated (fs : Fsspec.AbstractFileSystem)
    (connector_config : Fsspec.SimpleFsspecConfig)
    (docs : list Fsspec.FsspecIngestDoc) : Prop :=
  forall doc rpath,
    doc ∈ docs ->
    Fsspec.s3_output_path connector_config doc = Ok rpath ->
    Fsspec.put_file fs (PurePath.to_string (Fsspec._output_filename doc)) rpath = Ok tt ->
    (PurePath.to_string (Fsspec._output_filename doc), rpath)
      ∈ snd (Fsspec.write fs connector_config docs).

(** The files a listing of a folder is to reach: the files among the
    children of the folder and, in a recursive listing, the files reached
    from the children that are folders. *)
Inductive listed_below (recursive : bool) : OneDrive.DriveItem -> OneDrive.DriveItem -> Prop :=
| listed_child (folder d : OneDrive.DriveItem) :
    d ∈ OneDrive.children folder ->
    OneDrive.is_file d = true ->
    listed_below recursive folder d
| listed_nested (folder sub d : OneDrive.DriveItem) :
    recursive = true ->
    sub ∈ OneDrive.children folder ->
    OneDrive.is_folder sub = true ->
    listed_below recursive sub d ->
    listed_below recursive folder d.

End Design.

(** ** Concrete configurations, documents and backends *)

Module Scenario.

Import Fsspec.

Definition read_config : ReadConfig := {| download_dir := Some "tmp" |}.
Definition partition_config : PartitionConfig := {| output_dir := "output" |}.

(** The configurations [__post_init__] builds for three roots. *)
Definition bucket_config : SimpleFsspecConfig :=
  mkConfig "s3://bucket" true ∅ "s3" "bucket" "bucket" EmptyString.
Definition docs_config : SimpleFsspecConfig :=
  mkConfig "s3://bucket/docs" true ∅ "s3" "bucket/docs" "bucket" "docs".
Definition out_config : SimpleFsspecConfig :=
  mkConfig "s3://bucket/out/" false ∅ "s3" "bucket/out/" "bucket" "out/".

Definition bare_out_config : SimpleFsspecConfig :=
  mkConfig "s3://bucket/out" false ∅ "s3" "bucket/out" "bucket" "out".

(** A document of the source rooted at the bucket. *)
Definition doc_at (remote_file_path : string) : FsspecIngestDoc :=
  mkDoc read_config partition_config bucket_config remote_file_path.

(** A backend that lists what [found] says and accepts every transfer
    but the uploads of the local paths in [refused]. *)
Definition backend (found : list (string * entry)) (refused : list string)
    : AbstractFileSystem :=
  mkFs (fun _ => Ok (map snd found))
       (fun _ => Ok found)
       (fun rpath => Ok ("content of " +:+ rpath))
       (fun _ => None)
       (fun lpath _ =>
          if decide (lpath ∈ refused) then Raise (BackendError "access denied")
          else Ok tt).

Definition object (name : string) (size : Z) : string * entry :=
  (name, mkEntry name size).

(** The three objects of the listing scenario. *)
Definition docs_backend : AbstractFileSystem :=
  backend [object "docs/a.txt" 10; object "docs/sub/" 0; object "docs/sub/b.txt" 5] [].

(** Two objects of the bucket [bucket], with keys [a/f.txt] and
    [bucket/a/f.txt]. *)
Definition nested_backend : AbstractFileSystem :=
  backend [object "bucket/a/f.txt" 3; object "bucket/bucket/a/f.txt" 4] [].

(** A backend that refuses the upload of the output of [a.txt]. *)
Definition refusing_backend : AbstractFileSystem :=
  backend [] ["output/a.txt.json"].

Definition empty_world : world := mkWorld ∅ ∅ [].

(** The world after the first fetch of [a.txt] from the empty one. *)
Definition fetched_world : world :=
  snd (get_file (backend [] []) (doc_at "bucket/a.txt") empty_world).

(** A world where the download path of [a.txt] holds a zero-byte
    file. *)
Definition placeholder_world : world :=
  mkWorld {[ "tmp/a.txt" := EmptyString ]} {[ "tmp" ]} [].

(** A drive with two files in one folder, a table of three file types
    and paths that resolve to themselves. *)
Definition filetypes : list string := [".pdf"; ".txt"; ".docx"].

Definition no_resolve (p : PurePath.t) : PurePath.t := p.

Definition standard_config : OneDrive.StandardConnectorConfig :=
  {| OneDrive.download_dir := "tmp"; OneDrive.output_dir := "output" |}.

Definition drive_config : OneDrive.SimpleOneDriveConfig :=
  {| OneDrive.client_id := "id"; OneDrive.client_credential := "secret";
     OneDrive.user_pname := "user"; OneDrive.tenant := "common";
     OneDrive.authority_url := None; OneDrive.path := None;
     OneDrive.recursive := true |}.

Definition drive : OneDrive.GraphClient :=
  {| OneDrive.drive_root :=
       OneDrive.mkItem "root" "/drive" false true
         [OneDrive.mkItem "reports" "/drive/root:" false true
            [OneDrive.mkItem "q1.pdf" "/drive/root:/reports" true false [];
             OneDrive.mkItem "notes.xyz" "/drive/root:/reports" true false []]];
     OneDrive.get_by_path := fun _ _ => None |}.

(** The document of the file [q1.pdf] of the folder [reports]. *)
Definition q1_document : OneDrive.OneDriveIngestDoc :=
  OneDrive.mkDoc Scenario.standard_config Scenario.drive_config
    "q1.pdf" "reports" ".pdf" "reports/q1.pdf"
    (PurePath.of_string "tmp/reports") (PurePath.of_string "tmp/reports/q1.pdf")
    (PurePath.of_string "output/reports") (PurePath.of_string "output/reports/q1.json").

(** A drive with the single file [q1.pdf] in the folder [reports]. *)
Definition small_drive : OneDrive.GraphClient :=
  {| OneDrive.drive_root :=
       OneDrive.mkItem "root" "/drive" false true
         [OneDrive.mkItem "reports" "/drive/root:" false true
            [OneDrive.mkItem "q1.pdf" "/drive/root:/reports" true false []]];
     OneDrive.get_by_path := fun _ _ => None |}.

(** A page of the encyclopedia and a client that knows this page
    only. *)
Definition ada_page : Wikipedia.WikipediaPage :=
  {| Wikipedia.page_title := "Ada Lovelace"; Wikipedia.revision_id := 1187;
     Wikipedia.html := "<p>Ada</p>"; Wikipedia.content := "Ada";
     Wikipedia.summary := "A" |}.

Definition ada_config : Wikipedia.SimpleWikipediaConfig :=
  {| Wikipedia.title := "Ada Lovelace"; Wikipedia.auto_suggest := false |}.

Definition encyclopedia (title : string) (auto_suggest : bool)
    : result Wikipedia.WikipediaPage :=
  if String.eqb title "Ada Lovelace" then Ok ada_page
  else Raise (BackendError "Page id does not match any pages.").

End Scenario.

(** * Properties *)

(** ** The library operations on concrete inputs *)

Example replace_every_occurrence : PyStr.replace "abcabc" "bc" "X" = "aXaX".
Proof. reflexivity. Qed.

Example replace_empty_old : PyStr.replace "abc" EmptyString "-" = "-a-b-c-".
Proof. reflexivity. Qed.

Example split_two_separators : PyStr.split "s3://a://b" "://" = ["s3"; "a"; "b"].
Proof. reflexivity. Qed.

Example split_trailing_separator : PyStr.split "a://" "://" = ["a"; EmptyString].
Proof. reflexivity. Qed.

Example path_normalised :
  PurePath.to_string (PurePath.of_string "//a//b/./c.d.txt/") = "//a/b/c.d.txt".
Proof. reflexivity. Qed.

Example path_joined_with_rooted :
  PurePath.to_string (PurePath.truediv (PurePath.of_string "x") "///y") = "/y".
Proof. reflexivity. Qed.

Example suffixes_of_archive :
  PurePath.suffixes (PurePath.of_string "a/b/archive.tar.gz") = [".tar"; ".gz"].
Proof. reflexivity. Qed.

Example suffixes_of_hidden_file : PurePath.suffixes (PurePath.of_string ".bashrc") = [].
Proof. reflexivity. Qed.

Example resolve_root_only :
  Fsspec.__post_init__ "s3://bucket///" false ∅
  = Ok (Fsspec.mkConfig "s3://bucket///" false ∅ "s3" "bucket///" "bucket" EmptyString).
Proof. reflexivity. Qed.

Example resolve_second_separator :
  Fsspec.__post_init__ "s3://a://b" false ∅
  = Raise (ValueError "too many values to unpack (expected 2)").
Proof. reflexivity. Qed.

Example resolve_without_separator :
  Fsspec.__post_init__ "nothing" false ∅
  = Raise (ValueError "not enough values to unpack (expected 2, got 1)").
Proof. reflexivity. Qed.

(** ** Facts about the string operations *)

#[local] Arguments String.append !s1 s2 : simpl nomatch.

Section StringFacts.

Import PyStr.

Lemma append_empty_r (s : string) : s +:+ EmptyString = s.
Proof. induction s as [|c s IH]; simpl; [reflexivity | now rewrite IH]. Qed.

Lemma append_assoc (a b c : string) : (a +:+ b) +:+ c = a +:+ (b +:+ c).
Proof. induction a as [|x a IH]; simpl; [reflexivity | now rewrite IH]. Qed.

Lemma startswith_app (p s : string) : startswith p (p +:+ s) = true.
Proof.
  induction p as [|a p IH]; simpl; [reflexivity|].
  now rewrite Ascii.eqb_refl, IH.
Qed.

Lemma strip_literal_app (p s : string) : strip_literal p (p +:+ s) = Some s.
Proof.
  induction p as [|a p IH]; simpl; [reflexivity|].
  now rewrite Ascii.eqb_refl.
Qed.

Lemma strip_literal_Some (p s r : string) :
  strip_literal p s = Some r -> s = p +:+ r.
Proof.
  revert s; induction p as [|a p IH]; intros s H; simpl in *.
  - now inversion H.
  - destruct s as [|b s]; [discriminate|].
    destruct (Ascii.eqb a b) eqn:E; [|discriminate].
    apply Ascii.eqb_eq in E; subst b. now rewrite (IH _ H).
Qed.

Lemma contains_cons (sub : string) (c : ascii) (s : string) :
  contains sub (String c s) = false ->
  startswith sub (String c s) = false /\ contains sub s = false.
Proof. simpl. intros H. now apply orb_false_iff in H. Qed.

(** Where [old] does not occur, [replace] changes nothing. *)
Lemma replace_from_absent (old new s : string) :
  contains old s = false -> replace_from old new O s = s.
Proof.
  induction s as [|c s IH]; intros H; [reflexivity|].
  apply contains_cons in H as [Hs Hc].
  cbn [replace_from]. rewrite Hs. now rewrite (IH Hc).
Qed.

(** The characters of an occurrence being passed over are skipped. *)
Lemma replace_from_skip (old new p s : string) :
  replace_from old new (String.length p) (p +:+ s) = replace_from old new O s.
Proof. induction p as [|a p IH]; simpl; [reflexivity | exact IH]. Qed.

(** Replacing a leading occurrence of [old] by nothing, when [old] does
    not occur again, strips the prefix. *)
Lemma replace_leading (old rest : string) :
  nonempty old = true ->
  contains old rest = false ->
  replace (old +:+ rest) old EmptyString = rest.
Proof.
  intros Hne Habs. destruct old as [|a old]; [discriminate|].
  unfold replace. cbn [String.append replace_from].
  change (String a (old +:+ rest)) with (String a old +:+ rest).
  rewrite startswith_app. cbn [String.length Nat.pred String.append].
  rewrite replace_from_skip. now apply replace_from_absent.
Qed.

Lemma replace_absent (s old new : string) :
  nonempty old = true -> contains old s = false -> replace s old new = s.
Proof.
  intros Hne Habs. destruct old; [discriminate|].
  now apply replace_from_absent.
Qed.

(** Without a separator in it, a string is its own single piece. *)
Lemma split_from_absent (sep s : string) :
  contains sep s = false -> split_from sep O s = (s, []).
Proof.
  induction s as [|c s IH]; intros H; [reflexivity|].
  apply contains_cons in H as [Hs Hc].
  cbn [split_from]. rewrite Hs. now rewrite (IH Hc).
Qed.

Lemma span_all (p : ascii -> bool) (s : string) :
  str_all p s = true -> span p s = (s, EmptyString).
Proof.
  induction s as [|c s IH]; intros H; [reflexivity|].
  simpl in H. apply andb_true_iff in H as [Hc Hs].
  simpl. now rewrite Hc, (IH Hs).
Qed.

(** A run of [p] characters followed by a character outside [p]. *)
Lemma span_app_stop (p : ascii -> bool) (a : string) (c : ascii) (b : string) :
  str_all p a = true -> p c = false ->
  span p (a +:+ String c b) = (a, String c b).
Proof.
  induction a as [|x a IH]; intros Ha Hc; simpl.
  - now rewrite Hc.
  - simpl in Ha. apply andb_true_iff in Ha as [Hx Ha].
    now rewrite Hx, (IH Ha Hc).
Qed.

(** What [span] leaves starts with a character outside [p], and keeps
    every property of the characters of the whole. *)
Lemma span_rest (p q : ascii -> bool) (s : string) :
  str_all q s = true ->
  str_all p s = false ->
  exists c r, snd (span p s) = String c r /\ p c = false /\ q c = true.
Proof.
  induction s as [|c s IH]; intros Hq Hp; [discriminate|].
  simpl in Hq. apply andb_true_iff in Hq as [Hqc Hqs].
  simpl in Hp. simpl. destruct (p c) eqn:Epc.
  - simpl in Hp. destruct (IH Hqs Hp) as (c' & r & E & H1 & H2).
    destruct (span p s) as [a b]. simpl in *. eauto.
  - simpl. eauto.
Qed.

End StringFacts.

(** ** Resolving a location *)

Section Resolution.

Import PyStr Fsspec.

Ltac each_protocol H :=
  unfold SUPPORTED_REMOTE_FSSPEC_PROTOCOLS in H;
  repeat (apply elem_of_cons in H as [-> | H]);
  [ .. | now apply elem_of_nil in H ].

Lemma split_protocol (p r : string) :
  p ∈ SUPPORTED_REMOTE_FSSPEC_PROTOCOLS ->
  contains "://" r = false ->
  split (p +:+ "://" +:+ r) "://" = [p; r].
Proof.
  intros Hp Hr. unfold split.
  each_protocol Hp; simpl; now rewrite (split_from_absent _ _ Hr).
Qed.

Lemma strip_protocol (p r : string) :
  strip_literal (p +:+ "://") (p +:+ "://" +:+ r) = Some r.
Proof. rewrite <- append_assoc. apply strip_literal_app. Qed.

Lemma dir_char_not_space (c : ascii) : is_dir_char c = true -> is_space c = false.
Proof.
  unfold is_dir_char. intros H. apply andb_true_iff in H as [_ H].
  now apply negb_true_iff in H.
Qed.

Lemma dir_char_not_slash (c : ascii) : is_dir_char c = true -> is_slash c = false.
Proof.
  unfold is_dir_char. intros H. apply andb_true_iff in H as [H _].
  now apply negb_true_iff in H.
Qed.

Lemma slash_not_dir_char : is_dir_char slash = false.
Proof. reflexivity. Qed.


Lemma at_end_file_char (c : ascii) (r : string) :
  is_file_char c = true -> at_end (String c r) = false.
Proof.
  intros Hc. destruct r; [|reflexivity]. simpl.
  destruct (Ascii.eqb c "010") eqn:E; [|reflexivity].
  apply Ascii.eqb_eq in E. subst c. discriminate.
Qed.

Lemma no_empty_root (p bucket tl : string) :
  nonempty bucket = true ->
  str_all is_dir_char bucket = true ->
  match_empty_root p (p +:+ "://" +:+ bucket +:+ tl) = None.
Proof.
  intros Hne Hall. unfold match_empty_root. rewrite strip_protocol.
  destruct bucket as [|b bucket]; [discriminate|].
  simpl in Hall. apply andb_true_iff in Hall as [Hb _].
  apply dir_char_not_space in Hb.
  destruct bucket; destruct tl; simpl; now rewrite ?Hb.
Qed.

Lemma no_root_only (p bucket rest : string) :
  str_all is_dir_char bucket = true ->
  str_all is_file_char rest = true ->
  str_all is_slash rest = false ->
  match_root_only p (p +:+ "://" +:+ bucket +:+ "/" +:+ rest) = None.
Proof.
  intros Hb Hf Hs. unfold match_root_only. rewrite strip_protocol.
  change ("/" +:+ rest) with (String slash rest).
  rewrite (span_app_stop _ _ _ _ Hb slash_not_dir_char).
  destruct (span_rest is_slash is_file_char rest Hf Hs) as (c & r & E & _ & Hc).
  cbn [span]. change (is_slash slash) with true. cbn iota.
  destruct (span is_slash rest) as [seps tl]. simpl in E. subst tl.
  rewrite (at_end_file_char _ _ Hc). now rewrite andb_false_r.
Qed.

Lemma dir_file_groups (p bucket rest : string) :
  nonempty bucket = true ->
  str_all is_dir_char bucket = true ->
  str_all is_file_char rest = true ->
  match_dir_file p (p +:+ "://" +:+ bucket +:+ "/" +:+ rest) = Some (bucket, rest).
Proof.
  intros Hne Hb Hf. unfold match_dir_file. rewrite strip_protocol.
  change ("/" +:+ rest) with (String slash rest).
  rewrite (span_app_stop _ _ _ _ Hb slash_not_dir_char).
  rewrite Hne. change (is_slash slash) with true. cbn [andb].
  now rewrite (span_all _ _ Hf).
Qed.

Lemma post_init_dir_file (p bucket rest : string) (recursive : bool)
    (kw : gmap string string) :
  p ∈ SUPPORTED_REMOTE_FSSPEC_PROTOCOLS ->
  nonempty bucket = true ->
  str_all is_dir_char bucket = true ->
  str_all is_file_char rest = true ->
  str_all is_slash rest = false ->
  contains "://" (bucket +:+ "/" +:+ rest) = false ->
  __post_init__ (p +:+ "://" +:+ bucket +:+ "/" +:+ rest) recursive kw
  = Ok (mkConfig (p +:+ "://" +:+ bucket +:+ "/" +:+ rest) recursive kw
          p (bucket +:+ "/" +:+ rest) bucket rest).
Proof.
  intros Hp Hne Hb Hf Hs Hsep. unfold __post_init__.
  rewrite (split_protocol _ _ Hp Hsep).
  destruct (decide (p ∈ SUPPORTED_REMOTE_FSSPEC_PROTOCOLS)) as [_|N]; [|contradiction].
  rewrite (no_empty_root _ _ _ Hne Hb).
  rewrite (no_root_only _ _ _ Hb Hf Hs).
  now rewrite (dir_file_groups _ _ _ Hne Hb Hf).
Qed.

End Resolution.

(** C6, as the code has it. A location of the form protocol, [://],
    bucket, separator, rest, with a recognised protocol, a bucket name
    without separator or white space, a rest without white space that is
    more than separators, and no further [://], resolves to that bucket
    as directory and that rest as file; the location put together again
    from the result resolves to the same result. *)
Theorem resolve_general_case (protocol bucket rest : string) (recursive : bool)
    (kw : gmap string string) :
  protocol ∈ Fsspec.SUPPORTED_REMOTE_FSSPEC_PROTOCOLS ->
  PyStr.nonempty bucket = true ->
  PyStr.str_all Fsspec.is_dir_char bucket = true ->
  PyStr.str_all Fsspec.is_file_char rest = true ->
  PyStr.str_all PyStr.is_slash rest = false ->
  PyStr.contains "://" (bucket +:+ "/" +:+ rest) = false ->
  let raw := protocol +:+ "://" +:+ bucket +:+ "/" +:+ rest in
  exists location,
    Fsspec.__post_init__ raw recursive kw = Ok location /\
    Fsspec.protocol location = protocol /\
    Fsspec.dir_path location = bucket /\
    Fsspec.file_path location = rest /\
    Fsspec.__post_init__ (Design.reconstruct location) recursive kw = Ok location.
Proof.
  intros Hp Hne Hb Hf Hs Hsep raw.
  pose proof (post_init_dir_file _ _ _ recursive kw Hp Hne Hb Hf Hs Hsep) as H.
  eexists. split; [exact H|]. repeat split.
  unfold Design.reconstruct. cbn [Fsspec.protocol Fsspec.dir_path Fsspec.file_path].
  destruct rest as [|c rest]; [discriminate|]. cbn [PyStr.nonempty]. exact H.
Qed.

Lemma resolve_general_case_witness :
  exists location,
    Fsspec.__post_init__ "s3://bucket/a/b/c.txt" true ∅ = Ok location /\
    Fsspec.protocol location = "s3" /\
    Fsspec.dir_path location = "bucket" /\
    Fsspec.file_path location = "a/b/c.txt" /\
    Fsspec.__post_init__ (Design.reconstruct location) true ∅ = Ok location.
Proof.
  apply (resolve_general_case "s3" "bucket" "a/b/c.txt" true ∅);
    solve [ reflexivity | vm_compute; repeat constructor ].
Defined.

(** C6, as stated, fails. The code accepts [s3://bucket/my file.txt] and
    stops the file part at the white space: the file is [my], and the
    location put together again, [s3://bucket/my], is another location.
    A rest made of separators only falls under the root-only case and
    gives the empty file, and a rest that holds [://] makes the
    unpacking of the split raise. *)
Lemma general_case_fails_on_white_space :
  Fsspec.__post_init__ "s3://bucket/my file.txt" false ∅
  = Ok (Fsspec.mkConfig "s3://bucket/my file.txt" false ∅ "s3" "bucket/my file.txt"
          "bucket" "my") /\
  Fsspec.__post_init__ "s3://bucket/my" false ∅
  = Ok (Fsspec.mkConfig "s3://bucket/my" false ∅ "s3" "bucket/my" "bucket" "my") /\
  ~ Design.general_case "s3" "bucket" "my file.txt" /\
  ~ Design.general_case "s3" "bucket" "/" /\
  ~ Design.general_case "s3" "bucket" "a://b".
Proof.
  split; [reflexivity|]. split; [reflexivity|].
  repeat split; intros (location & H & _ & Hf & _); vm_compute in H;
    inversion H; subst location; discriminate Hf.
Qed.

(** C7. For the dropbox protocol, whose root is the empty string, the
    location made of the protocol, [://], one space and one separator
    resolves to the single-space directory and the empty file. *)
Theorem resolve_empty_root (recursive : bool) (kw : gmap string string) :
  Fsspec.__post_init__ "dropbox:// /" recursive kw
  = Ok (Fsspec.mkConfig "dropbox:// /" recursive kw "dropbox" " /" " " EmptyString).
Proof. reflexivity. Qed.

(** ** The local paths of a document *)

Section LocalPaths.

Import PyStr Fsspec.

(** Where the directory and its separator occur only as the leading
    prefix of the remote path, or not at all, [replace] and the
    stripping of the prefix agree. *)
Lemma relative_path_strips (doc : FsspecIngestDoc) :
  let directory := dir_path (connector_config doc) in
  contains (directory +:+ "/")
    (Design.relative_suffix directory (remote_file_path doc)) = false ->
  relative_path doc = Design.relative_suffix directory (remote_file_path doc).
Proof.
  intros directory. unfold relative_path, Design.relative_suffix, Design.strip_prefix.
  fold directory.
  assert (Hne : nonempty (directory +:+ "/") = true) by (now destruct directory).
  destruct (strip_literal (directory +:+ "/") (remote_file_path doc)) as [rest|] eqn:E.
  - intros Habs. rewrite (strip_literal_Some _ _ _ E).
    now apply replace_leading.
  - intros Habs. now apply replace_absent.
Qed.

End LocalPaths.

(** C3, as the code has it. Where the directory followed by a separator
    does not occur in the remote reference after its leading occurrence
    has been stripped, the download path is the download root joined with
    that stripped suffix, and the output path is the output root joined
    with the same suffix followed by [.json]: the extension is kept and
    [.json] comes after it. *)
Theorem local_paths_of_stripped_suffix (doc : Fsspec.FsspecIngestDoc) :
  let directory := Fsspec.dir_path (Fsspec.connector_config doc) in
  let download_root := default EmptyString (Fsspec.download_dir (Fsspec.read_config doc)) in
  let output_root := Fsspec.output_dir (Fsspec.partition_config doc) in
  let suffix := Design.relative_suffix directory (Fsspec.remote_file_path doc) in
  PyStr.contains (directory +:+ "/") suffix = false ->
  Fsspec._tmp_download_file doc
    = Design.download_path download_root directory (Fsspec.remote_file_path doc) /\
  Fsspec._output_filename doc
    = PurePath.truediv (PurePath.of_string output_root) (suffix +:+ ".json").
Proof.
  intros directory download_root output_root suffix Habs.
  pose proof (relative_path_strips doc Habs) as E. fold directory in E.
  unfold Fsspec._tmp_download_file, Fsspec._output_filename, Design.download_path.
  rewrite E. fold suffix. split; [|reflexivity].
  f_equal. f_equal. unfold download_root.
  destruct (Fsspec.download_dir (Fsspec.read_config doc)) as [[|c d]|]; reflexivity.
Qed.

Lemma local_paths_of_stripped_suffix_witness :
  Fsspec._tmp_download_file (Scenario.doc_at "bucket/sub/b.txt")
    = Design.download_path "tmp" "bucket" "bucket/sub/b.txt" /\
  Fsspec._output_filename (Scenario.doc_at "bucket/sub/b.txt")
    = PurePath.truediv (PurePath.of_string "output") ("sub/b.txt" +:+ ".json").
Proof.
  apply (local_paths_of_stripped_suffix (Scenario.doc_at "bucket/sub/b.txt")).
  reflexivity.
Defined.

(** C3, as stated, fails. The output path of the object [sub/b.txt] is
    [output/sub/b.txt.json], where replacing the extension gives
    [output/sub/b.json]; and for the object [bucket/a/f.txt] of the
    bucket [bucket] every occurrence of the directory is removed, not
    only the leading one. *)
Lemma mapping_differs_from_design :
  ~ Design.mapping_agrees (Scenario.doc_at "bucket/sub/b.txt") /\
  ~ Design.mapping_agrees (Scenario.doc_at "bucket/bucket/a/f.txt").
Proof.
  split; intros [H1 H2]; vm_compute in H1, H2; discriminate.
Qed.

(** C2, on the code. A source rooted at the bucket [bucket] lists the
    objects [a/f.txt] and [bucket/a/f.txt]; the two documents have
    different remote references and the same download path. *)
Theorem download_paths_collide :
  exists doc1 doc2,
    Fsspec.get_ingest_docs Scenario.nested_backend Scenario.read_config
      Scenario.bucket_config Scenario.partition_config = Ok [doc1; doc2] /\
    Fsspec.remote_file_path doc1 <> Fsspec.remote_file_path doc2 /\
    Fsspec._tmp_download_file doc1 = Fsspec._tmp_download_file doc2 /\
    PurePath.to_string (Fsspec._tmp_download_file doc1) = "tmp/a/f.txt".
Proof.
  exists (Scenario.doc_at "bucket/a/f.txt"), (Scenario.doc_at "bucket/bucket/a/f.txt").
  split; [reflexivity|]. split; [discriminate|]. split; reflexivity.
Qed.

(** The two remote references of the design's example, whatever the
    download root: the download paths differ. *)
Lemma same_basename_distinct (download_root : option string) :
  let doc remote :=
    Fsspec.mkDoc {| Fsspec.download_dir := download_root |} Scenario.partition_config
      Scenario.bucket_config remote in
  Fsspec._tmp_download_file (doc "dir1/f.txt") <> Fsspec._tmp_download_file (doc "dir2/f.txt").
Proof.
  intros doc. unfold Fsspec._tmp_download_file, PurePath.truediv.
  cbn [Fsspec.read_config Fsspec.download_dir doc].
  set (base := PurePath.of_string _).
  change (Fsspec.relative_path (doc "dir1/f.txt")) with "dir1/f.txt".
  change (Fsspec.relative_path (doc "dir2/f.txt")) with "dir2/f.txt".
  change (PurePath.of_string "dir1/f.txt") with (PurePath.mk EmptyString ["dir1"; "f.txt"]).
  change (PurePath.of_string "dir2/f.txt") with (PurePath.mk EmptyString ["dir2"; "f.txt"]).
  cbn [PurePath.root PurePath.parts PyStr.nonempty].
  intros H. injection H as H. apply app_inv_head in H. discriminate.
Qed.

(** C1, on the code. The output [output/sub/b.txt.json] written to the
    destination root [s3://bucket/out/] is uploaded to a remote path in
    which the root comes twice and a separator is doubled; with the root
    [s3://bucket/out] the whole remote path comes twice. *)
Theorem write_target_repeats_root :
  PurePath.to_string (Fsspec._output_filename (Scenario.doc_at "bucket/sub/b.txt"))
    = "output/sub/b.txt.json" /\
  Fsspec.__post_init__ "s3://bucket/out/" false ∅ = Ok Scenario.out_config /\
  Fsspec.write (Scenario.backend [] []) Scenario.out_config
    [Scenario.doc_at "bucket/sub/b.txt"]
  = (Ok tt, [("output/sub/b.txt.json",
              "s3://bucket/out/s3://bucket/out//sub/b.txt.json")]) /\
  Fsspec.__post_init__ "s3://bucket/out" false ∅ = Ok Scenario.bare_out_config /\
  Fsspec.write (Scenario.backend [] []) Scenario.bare_out_config
    [Scenario.doc_at "bucket/sub/b.txt"]
  = (Ok tt, [("output/sub/b.txt.json",
              "s3://bucket/out/sub/b.txt.json/s3://bucket/out/sub/b.txt.json")]).
Proof. repeat split; reflexivity. Qed.

(** ** Fetching a document *)

Section Fetch.

Import PyStr Fsspec.

Lemma mkdir_each_keeps (ps : list PurePath.t) (w w' : world) (r : result unit) :
  mkdir_each ps w = (r, w') ->
  files w' = files w /\ transfers w' = transfers w.
Proof.
  revert w. induction ps as [|p ps IH]; intros w H; cbn [mkdir_each] in H.
  - unfold ret in H. now inversion H.
  - destruct (files w !! PurePath.to_string p).
    + now inversion H.
    + apply IH in H. cbn [files transfers] in H. exact H.
Qed.

(** A fetch that is not skipped and returns has asked the backend
    once. *)
Lemma get_file_body_transfers (fs : AbstractFileSystem) (doc : FsspecIngestDoc)
    (w w1 : world) :
  get_file_body fs doc w = (Ok tt, w1) ->
  transfers w1 = transfers w ++ [remote_file_path doc].
Proof.
  unfold get_file_body, bindM, _create_full_tmp_dir_path, mkdir_parents.
  destruct (mkdir_each _ w) as [[[]|e] w0] eqn:E; [|discriminate].
  apply mkdir_each_keeps in E as [_ Et].
  unfold fs_get. destruct (get fs (remote_file_path doc)); [|discriminate].
  intros H. inversion H. cbn [transfers]. now rewrite Et.
Qed.

Lemma wrap_ok (func : FsspecIngestDoc -> M unit) (doc : FsspecIngestDoc) (w w1 : world) :
  SourceConnectionError_wrap func doc w = (Ok tt, w1) -> func doc w = (Ok tt, w1).
Proof.
  unfold SourceConnectionError_wrap.
  destruct (func doc w) as [[[]|e] w0]; [tauto | discriminate].
Qed.

Lemma skip_when_fetched (fs : AbstractFileSystem) (doc : FsspecIngestDoc)
    (w : world) (content : string) :
  files w !! PurePath.to_string (filename doc) = Some content ->
  nonempty content = true ->
  get_file fs doc w = (Ok tt, w).
Proof.
  intros Hf Hne. unfold get_file, SourceConnectionError_wrap, skip_if_file_exists.
  now rewrite Hf, Hne.
Qed.

Lemma no_skip_when_pending (fs : AbstractFileSystem) (doc : FsspecIngestDoc) (w : world) :
  (forall content, files w !! PurePath.to_string (filename doc) = Some content ->
                   nonempty content = false) ->
  get_file fs doc w = SourceConnectionError_wrap (get_file_body fs) doc w.
Proof.
  intros Hp. unfold get_file, SourceConnectionError_wrap, skip_if_file_exists.
  destruct (files w !! PurePath.to_string (filename doc)) as [content|] eqn:E;
    [|reflexivity].
  now rewrite (Hp content eq_refl).
Qed.

(** A zero-byte file at the download path: the fetch asks the backend
    and the file gets its content. *)
Example placeholder_is_fetched :
  let '(r, w) := get_file (Scenario.backend [] []) (Scenario.doc_at "bucket/a.txt")
                   Scenario.placeholder_world in
  r = Ok tt /\ transfers w = ["bucket/a.txt"] /\
  files w !! "tmp/a.txt" = Some "content of bucket/a.txt".
Proof. repeat split; reflexivity. Qed.

End Fetch.

(** C4. Once the download path holds a non-empty file, [get_file] returns
    at once and leaves the world, the log of transfers included, as it
    is. A first fetch of a document whose download path holds no
    non-empty file, when it returns with that file non-empty, has asked
    the backend exactly once, and so have the first and the second fetch
    together. A zero-byte file at the download path does not stop the
    fetch: the backend is asked. *)
Theorem fetch_twice_transfers_once (fs : Fsspec.AbstractFileSystem)
    (doc : Fsspec.FsspecIngestDoc) :
  let lpath := PurePath.to_string (Fsspec.filename doc) in
  (forall w content,
      Fsspec.files w !! lpath = Some content ->
      PyStr.nonempty content = true ->
      Fsspec.get_file fs doc w = (Ok tt, w)) /\
  (forall w w1 content,
      (forall old, Fsspec.files w !! lpath = Some old -> PyStr.nonempty old = false) ->
      Fsspec.get_file fs doc w = (Ok tt, w1) ->
      Fsspec.files w1 !! lpath = Some content ->
      PyStr.nonempty content = true ->
      Fsspec.transfers w1 = Fsspec.transfers w ++ [Fsspec.remote_file_path doc] /\
      Fsspec.get_file fs doc w1 = (Ok tt, w1)) /\
  (forall w w',
      Fsspec.files w !! lpath = Some EmptyString ->
      Fsspec._create_full_tmp_dir_path doc w = (Ok tt, w') ->
      Fsspec.transfers (snd (Fsspec.get_file fs doc w))
      = Fsspec.transfers w ++ [Fsspec.remote_file_path doc]).
Proof.
  intros lpath. split; [|split].
  - intros w content Hf Hne. now apply skip_when_fetched with content.
  - intros w w1 content Hpending H1 Hf Hne. split.
    + rewrite (no_skip_when_pending fs doc w Hpending) in H1.
      apply wrap_ok in H1. now apply get_file_body_transfers in H1.
    + now apply skip_when_fetched with content.
  - intros w w' Hf Hdir.
    rewrite (no_skip_when_pending fs doc w).
    + unfold Fsspec.SourceConnectionError_wrap, Fsspec.get_file_body, Fsspec.bindM.
      rewrite Hdir. unfold Fsspec.fs_get.
      apply mkdir_each_keeps in Hdir as [_ Et].
      destruct (Fsspec.get fs (Fsspec.remote_file_path doc)); cbn; now rewrite Et.
    + intros old Hold. fold lpath in Hold. rewrite Hf in Hold. now inversion Hold.
Qed.

Lemma fetch_twice_transfers_once_witness :
  Fsspec.transfers Scenario.fetched_world = [] ++ ["bucket/a.txt"] /\
  Fsspec.get_file (Scenario.backend [] []) (Scenario.doc_at "bucket/a.txt")
    Scenario.fetched_world = (Ok tt, Scenario.fetched_world).
Proof.
  apply (proj1 (proj2 (fetch_twice_transfers_once (Scenario.backend [] [])
                         (Scenario.doc_at "bucket/a.txt")))
           Scenario.empty_world Scenario.fetched_world "content of bucket/a.txt").
  - intros old H. vm_compute in H. discriminate.
  - reflexivity.
  - reflexivity.
  - reflexivity.
Defined.

(** ** Listing and initialising a source *)

(** C5. In both enumeration modes the documents of [get_ingest_docs] are
    those of the reported entries whose size is positive, in the order of
    the backend, so that no document stands for an entry of size zero.
    With the root [s3://bucket/docs], recursive enumeration, and the
    objects [docs/a.txt] of size 10, [docs/sub/] of size 0 and
    [docs/sub/b.txt] of size 5, the documents are those of [docs/a.txt]
    and [docs/sub/b.txt]. *)
Theorem list_excludes_zero_size (fs : Fsspec.AbstractFileSystem)
    (read_config : Fsspec.ReadConfig) (connector_config : Fsspec.SimpleFsspecConfig)
    (partition_config : Fsspec.PartitionConfig) :
  (forall objects,
      Design.reported fs connector_config = Ok objects ->
      Fsspec.get_ingest_docs fs read_config connector_config partition_config
      = Ok (map (Fsspec.mkDoc read_config partition_config connector_config)
              (map fst (filter (fun o => snd o > 0) objects)))) /\
  (forall objects docs doc,
      Design.reported fs connector_config = Ok objects ->
      Fsspec.get_ingest_docs fs read_config connector_config partition_config = Ok docs ->
      doc ∈ docs ->
      exists sz, (Fsspec.remote_file_path doc, sz) ∈ objects /\ sz <> 0) /\
  (Fsspec.__post_init__ "s3://bucket/docs" true ∅ = Ok Scenario.docs_config /\
   Fsspec.get_ingest_docs Scenario.docs_backend Scenario.read_config
     Scenario.docs_config Scenario.partition_config
   = Ok [Fsspec.mkDoc Scenario.read_config Scenario.partition_config
           Scenario.docs_config "docs/a.txt";
         Fsspec.mkDoc Scenario.read_config Scenario.partition_config
           Scenario.docs_config "docs/sub/b.txt"]).
Proof.
  assert (Heq : forall objects,
      Design.reported fs connector_config = Ok objects ->
      Fsspec._list_files fs connector_config
      = Ok (map fst (filter (fun o => snd o > 0) objects))).
  { intros objects. unfold Design.reported, Fsspec._list_files.
    destruct (Fsspec.recursive connector_config); cbn [negb].
    - destruct (Fsspec.find fs _) as [found|e]; cbn [bind]; [|discriminate].
      intros H. inversion H. f_equal. clear.
      induction found as [|kv found IH]; [reflexivity|].
      cbn [map]. rewrite !filter_cons. cbn [fst snd].
      destruct (decide (Fsspec.size (snd kv) > 0)); cbn [map]; now rewrite IH.
    - destruct (Fsspec.ls fs _) as [listing|e]; cbn [bind]; [|discriminate].
      intros H. inversion H. f_equal. clear.
      induction listing as [|x listing IH]; [reflexivity|].
      cbn [map]. rewrite !filter_cons. cbn [fst snd].
      destruct (decide (Fsspec.size x > 0)); cbn [map]; now rewrite IH. }
  split; [|split].
  - intros objects H. unfold Fsspec.get_ingest_docs. now rewrite (Heq objects H).
  - intros objects docs doc H Hd Hin. unfold Fsspec.get_ingest_docs in Hd.
    rewrite (Heq objects H) in Hd. cbn [bind] in Hd. inversion Hd. subst docs.
    apply list_elem_of_fmap in Hin as (nm & -> & Hin).
    apply list_elem_of_fmap in Hin as ([nm' sz] & -> & Hin).
    apply list_elem_of_filter in Hin as [Hpos Hin]. cbn [snd fst] in *.
    exists sz. split; [exact Hin | lia].
  - split; reflexivity.
Qed.

Lemma list_excludes_zero_size_witness :
  exists sz,
    (Fsspec.remote_file_path (Fsspec.mkDoc Scenario.read_config Scenario.partition_config
                                Scenario.docs_config "docs/sub/b.txt"), sz)
      ∈ [("docs/a.txt", 10); ("docs/sub/", 0); ("docs/sub/b.txt", 5)] /\ sz <> 0.
Proof.
  apply (proj1 (proj2 (list_excludes_zero_size Scenario.docs_backend Scenario.read_config
                         Scenario.docs_config Scenario.partition_config))
           [("docs/a.txt", 10); ("docs/sub/", 0); ("docs/sub/b.txt", 5)]
           [Fsspec.mkDoc Scenario.read_config Scenario.partition_config
              Scenario.docs_config "docs/a.txt";
            Fsspec.mkDoc Scenario.read_config Scenario.partition_config
              Scenario.docs_config "docs/sub/b.txt"]).
  - reflexivity.
  - reflexivity.
  - apply list_elem_of_In. simpl. tauto.
Defined.

(** C8. When the backend answers the listing of the configured root,
    [initialize] raises its error exactly when the listing is empty and
    returns when the listing has an entry; an error of the backend itself
    is passed on as it is. *)
Theorem initialize_fails_iff_empty (fs : Fsspec.AbstractFileSystem)
    (connector_config : Fsspec.SimpleFsspecConfig) :
  (forall listing,
      Fsspec.ls fs (Fsspec.path_without_protocol connector_config) = Ok listing ->
      (listing = [] ->
       Fsspec.initialize fs connector_config
       = Raise (ValueError ("No objects found in " +:+ Fsspec.path connector_config +:+ "."))) /\
      (listing <> [] -> Fsspec.initialize fs connector_config = Ok tt) /\
      (is_ok (Fsspec.initialize fs connector_config) = false <-> listing = [])) /\
  (forall e,
      Fsspec.ls fs (Fsspec.path_without_protocol connector_config) = Raise e ->
      Fsspec.initialize fs connector_config = Raise e).
Proof.
  split.
  - intros listing H. unfold Fsspec.initialize. rewrite H. cbn [bind].
    destruct listing as [|x listing].
    + cbn. repeat split; congruence.
    + replace (Z.of_nat (List.length (x :: listing)) <? 1) with false
        by (symmetry; apply Z.ltb_ge; cbn [List.length]; lia).
      cbn. repeat split; congruence.
  - intros e H. unfold Fsspec.initialize. now rewrite H.
Qed.

Lemma initialize_fails_iff_empty_witness :
  Fsspec.initialize Scenario.docs_backend Scenario.docs_config = Ok tt.
Proof.
  apply (proj1 (proj2 (proj1 (initialize_fails_iff_empty Scenario.docs_backend
                                Scenario.docs_config)
                         [Fsspec.mkEntry "docs/a.txt" 10; Fsspec.mkEntry "docs/sub/" 0;
                          Fsspec.mkEntry "docs/sub/b.txt" 5] eq_refl))).
  discriminate.
Defined.

(** ** Writing to a destination *)

Section Write.

Import Fsspec.

Lemma write_from_uploaded (fs : AbstractFileSystem) (cfg : SimpleFsspecConfig)
    (pre : list FsspecIngestDoc) (ups : list (string * string)) :
  Forall2 (fun d u => Design.attempt fs cfg d = Ok u) pre ups ->
  forall rest acc,
    write_from fs cfg (pre ++ rest) acc = write_from fs cfg rest (acc ++ ups).
Proof.
  induction 1 as [|d u pre ups Hd _ IH]; intros rest acc.
  - now rewrite app_nil_r.
  - cbn [app write_from]. unfold Design.attempt in Hd.
    destruct (s3_output_path cfg d) as [rpath|e]; cbn [bind] in Hd; [|discriminate].
    destruct (put_file fs _ rpath) as [[]|e]; cbn [bind] in Hd; [|discriminate].
    inversion Hd. rewrite IH. now rewrite <- app_assoc.
Qed.

Lemma write_from_failure (fs : AbstractFileSystem) (cfg : SimpleFsspecConfig)
    (doc : FsspecIngestDoc) (e : exn) (post : list FsspecIngestDoc)
    (acc : list (string * string)) :
  Design.attempt fs cfg doc = Raise e ->
  write_from fs cfg (doc :: post) acc = (Raise e, acc).
Proof.
  unfold Design.attempt. cbn [write_from].
  destruct (s3_output_path cfg doc) as [rpath|e']; cbn [bind].
  - destruct (put_file fs _ rpath) as [[]|e']; cbn [bind]; [discriminate|].
    intros H. now inversion H.
  - intros H. now inversion H.
Qed.

End Write.

(** C9, as the code has it. [write] uploads the documents in order and
    stops at the first failure: the error of that document leaves
    [write] as it is, the documents before it have been uploaded and the
    documents after it are not tried. When no upload fails, every
    document has been uploaded. *)
Theorem write_stops_at_first_failure (fs : Fsspec.AbstractFileSystem)
    (connector_config : Fsspec.SimpleFsspecConfig) :
  (forall docs ups,
      Forall2 (fun d u => Design.attempt fs connector_config d = Ok u) docs ups ->
      Fsspec.write fs connector_config docs = (Ok tt, ups)) /\
  (forall pre ups doc e post,
      Forall2 (fun d u => Design.attempt fs connector_config d = Ok u) pre ups ->
      Design.attempt fs connector_config doc = Raise e ->
      Fsspec.write fs connector_config (pre ++ doc :: post) = (Raise e, ups)).
Proof.
  split.
  - intros docs ups H. unfold Fsspec.write.
    rewrite <- (app_nil_r docs). now rewrite (write_from_uploaded _ _ _ _ H).
  - intros pre ups doc e post H He. unfold Fsspec.write.
    rewrite (write_from_uploaded _ _ _ _ H). now apply write_from_failure.
Qed.

Lemma write_stops_at_first_failure_witness :
  Fsspec.write Scenario.refusing_backend Scenario.out_config
    ([Scenario.doc_at "bucket/z.txt"]
       ++ Scenario.doc_at "bucket/a.txt" :: [Scenario.doc_at "bucket/b.txt"])
  = (Raise (BackendError "access denied"),
     [("output/z.txt.json", "s3://bucket/out/s3://bucket/out//z.txt.json")]).
Proof.
  apply (proj2 (write_stops_at_first_failure Scenario.refusing_backend Scenario.out_config)).
  - repeat constructor.
  - reflexivity.
Defined.

(** C9, as stated, fails. The backend refuses the output of [a.txt] and
    would accept that of [b.txt]; [write] on the two documents ends with
    the error of the first and the second is never uploaded. *)
Lemma write_failure_not_isolated :
  ~ Design.uploads_isolated Scenario.refusing_backend Scenario.out_config
      [Scenario.doc_at "bucket/a.txt"; Scenario.doc_at "bucket/b.txt"].
Proof.
  intros H.
  specialize (H (Scenario.doc_at "bucket/b.txt")
                "s3://bucket/out/s3://bucket/out//b.txt.json").
  assert (Hin : Scenario.doc_at "bucket/b.txt"
                  ∈ [Scenario.doc_at "bucket/a.txt"; Scenario.doc_at "bucket/b.txt"])
    by (apply list_elem_of_In; simpl; tauto).
  specialize (H Hin eq_refl eq_refl).
  vm_compute in H. apply list_elem_of_In in H. exact H.
Qed.

(** ** OneDrive documents *)

Section Suffixes.

Import PyStr.

Lemma rfind_dot_None (s : string) : rfind_dot s = None -> str_all nodot s = true.
Proof.
  induction s as [|c s IH]; [reflexivity|]. cbn [rfind_dot str_all].
  destruct (rfind_dot s) as [[i t]|]; [discriminate|].
  unfold nodot at 1. destruct (is_dot c); [discriminate|]. intros _. now rewrite IH.
Qed.

Lemma nodot_not_contains (s : string) : str_all nodot s = true -> contains "." s = false.
Proof.
  induction s as [|c s IH]; [reflexivity|]. cbn [str_all]. intros H.
  apply andb_true_iff in H as [Hc Hs]. cbn [contains startswith].
  rewrite (IH Hs). unfold nodot, is_dot in Hc. apply negb_true_iff in Hc.
  rewrite Ascii.eqb_sym. unfold dot in Hc. now rewrite Hc.
Qed.

Lemma nodot_split (s : string) : str_all nodot s = true -> split s "." = [s].
Proof.
  intros H. unfold split. now rewrite (split_from_absent _ _ (nodot_not_contains _ H)).
Qed.

Lemma nodot_lstrip (s : string) : str_all nodot s = true -> lstrip_dots s = s.
Proof.
  destruct s as [|c s]; [reflexivity|]. cbn [str_all lstrip_dots]. intros H.
  apply andb_true_iff in H as [Hc _]. unfold nodot in Hc.
  apply negb_true_iff in Hc. now rewrite Hc.
Qed.

Lemma nodot_last (s : string) (c : ascii) :
  str_all nodot s = true -> last_char s = Some c -> is_dot c = false.
Proof.
  induction s as [|x s IH]; [discriminate|]. cbn [str_all]. intros H.
  apply andb_true_iff in H as [Hx Hs]. cbn [last_char]. destruct s as [|y s].
  - intros E. inversion E. subst. now apply negb_true_iff in Hx.
  - now apply IH.
Qed.

(** [rfind_dot] returns a tail of the string that starts with a dot. *)
Lemma rfind_dot_Some (s : string) (i : nat) (t : string) :
  rfind_dot s = Some (i, t) ->
  exists pre rest, s = pre +:+ t /\ t = String dot rest /\ str_all nodot rest = true
                   /\ String.length pre = i.
Proof.
  revert i t. induction s as [|c s IH]; intros i t; [discriminate|].
  cbn [rfind_dot]. destruct (rfind_dot s) as [[j u]|] eqn:E.
  - intros H. inversion H. subst. destruct (IH j t eq_refl) as (pre & rest & -> & -> & Hr & Hl).
    exists (String c pre), rest. cbn. now rewrite Hl.
  - destruct (is_dot c) eqn:Ec; [|discriminate]. intros H. inversion H. subst.
    apply Ascii.eqb_eq in Ec. subst c.
    exists EmptyString, s. repeat split. now apply rfind_dot_None.
Qed.

Lemma last_char_app (pre : string) (c : ascii) :
  last_char (pre +:+ String c EmptyString) = Some c.
Proof.
  induction pre as [|x pre IH]; [reflexivity|].
  cbn [String.append last_char]. rewrite IH.
  now destruct pre.
Qed.

(** A name without a suffix in the sense of [p.suffix] has no suffixes
    in the sense of [p.suffixes]. *)
Lemma no_suffix_no_suffixes (p : PurePath.t) :
  PurePath.suffix p = EmptyString -> PurePath.suffixes p = [].
Proof.
  unfold PurePath.suffix, PurePath.suffixes.
  destruct (rfind_dot (PurePath.name p)) as [[i t]|] eqn:E.
  - destruct (rfind_dot_Some _ _ _ E) as (pre & rest & Hs & -> & Hr & Hl).
    rewrite Hs. destruct i as [|i].
    + destruct pre; [|discriminate]. intros _. cbn [String.append].
      destruct rest as [|c rest]; [reflexivity|].
      change (last_char (String dot (String c rest))) with (last_char (String c rest)).
      destruct (last_char (String c rest)) as [l|] eqn:El; [|reflexivity].
      rewrite (nodot_last _ _ Hr El).
      change (lstrip_dots (String dot (String c rest))) with (lstrip_dots (String c rest)).
      rewrite (nodot_lstrip _ Hr). now rewrite (nodot_split _ Hr).
    + destruct rest as [|c rest]; [|discriminate]. intros _.
      now rewrite last_char_app.
  - intros _. apply rfind_dot_None in E.
    destruct (last_char (PurePath.name p)) as [l|] eqn:El; [|reflexivity].
    rewrite (nodot_last _ _ E El). rewrite (nodot_lstrip _ E).
    now rewrite (nodot_split _ E).
Qed.

End Suffixes.

Section OneDriveFacts.

Import OneDrive.

Lemma comprehension_raises {A B : Type} (f : A -> result B) (xs : list A)
    (x : A) (e : exn) :
  x ∈ xs -> f x = Raise e -> exists e', comprehension f xs = Raise e'.
Proof.
  intros Hin Hx. induction Hin as [x xs | x y xs _ IH]; cbn [comprehension].
  - rewrite Hx. cbn. eauto.
  - destruct (f y); cbn [bind]; [|eauto].
    destruct (IH Hx) as [e' ->]. cbn. eauto.
Qed.

Lemma comprehension_returns {A B : Type} (f : A -> result B) (xs : list A)
    (ys : list B) :
  comprehension f xs = Ok ys -> Forall2 (fun x y => f x = Ok y) xs ys.
Proof.
  revert ys. induction xs as [|x xs IH]; intros ys H; cbn [comprehension] in H.
  - inversion H. constructor.
  - destruct (f x) as [y|] eqn:E; cbn [bind] in H; [|discriminate].
    destruct (comprehension f xs) as [ys'|]; cbn [bind] in H; [|discriminate].
    inversion H. constructor; [exact E | now apply IH].
Qed.

Variable EXT_TO_FILETYPE : list string.
Variable resolve : PurePath.t -> PurePath.t.

Lemma post_init_raises (standard_config : StandardConnectorConfig)
    (config : SimpleOneDriveConfig) (file_name file_path : string) :
  ext_of file_name = EmptyString \/ ext_of file_name ∉ EXT_TO_FILETYPE ->
  exists e,
    __post_init__ EXT_TO_FILETYPE resolve standard_config config file_name file_path
    = Raise e.
Proof.
  intros H. unfold __post_init__.
  destruct (ext_of file_name) as [|c ext'] eqn:E; cbn [PyStr.nonempty negb]; [eauto|].
  destruct H as [H|H]; [discriminate|].
  destruct (decide (String c ext' ∈ EXT_TO_FILETYPE)); [contradiction | eauto].
Qed.

Lemma post_init_raises_no_suffix (standard_config : StandardConnectorConfig)
    (config : SimpleOneDriveConfig) (file_name file_path : string) :
  PurePath.suffix (PurePath.of_string file_name) = EmptyString ->
  exists e,
    __post_init__ EXT_TO_FILETYPE resolve standard_config config file_name file_path
    = Raise e.
Proof.
  intros H. apply post_init_raises. left.
  unfold ext_of. now rewrite (no_suffix_no_suffixes _ H).
Qed.

Lemma post_init_returns (standard_config : StandardConnectorConfig)
    (config : SimpleOneDriveConfig) (file_name file_path : string)
    (doc : OneDriveIngestDoc) :
  __post_init__ EXT_TO_FILETYPE resolve standard_config config file_name file_path
  = Ok doc ->
  OneDrive.file_name doc = file_name /\
  ext doc = ext_of file_name /\
  ext doc <> EmptyString /\
  ext doc ∈ EXT_TO_FILETYPE.
Proof.
  unfold __post_init__.
  destruct (ext_of file_name) as [|c ext'] eqn:E; cbn [PyStr.nonempty negb];
    [discriminate|].
  destruct (decide (String c ext' ∈ EXT_TO_FILETYPE)); [|discriminate].
  intros H. inversion H. cbn. repeat split; [discriminate | assumption].
Qed.

Lemma gen_ingest_doc_raises (standard_config : StandardConnectorConfig)
    (config : SimpleOneDriveConfig) (file : DriveItem) :
  ext_of (name file) = EmptyString \/ ext_of (name file) ∉ EXT_TO_FILETYPE ->
  exists e,
    _gen_ingest_doc EXT_TO_FILETYPE resolve standard_config config file = Raise e.
Proof.
  intros H. unfold _gen_ingest_doc.
  destruct (List.last _ _); [eauto|].
  now apply post_init_raises.
Qed.

Lemma gen_ingest_doc_returns (standard_config : StandardConnectorConfig)
    (config : SimpleOneDriveConfig) (file : DriveItem) (doc : OneDriveIngestDoc) :
  _gen_ingest_doc EXT_TO_FILETYPE resolve standard_config config file = Ok doc ->
  file_name doc = name file /\
  ext doc = ext_of (name file) /\
  ext doc <> EmptyString /\
  ext doc ∈ EXT_TO_FILETYPE.
Proof.
  unfold _gen_ingest_doc.
  destruct (List.last _ _); [discriminate|].
  apply post_init_returns.
Qed.

End OneDriveFacts.

(** C10. The construction of a OneDrive document raises whenever the
    joined suffixes of the file name are empty or are not a key of the
    table of file types, in [__post_init__] and so in [_gen_ingest_doc];
    [get_ingest_docs] then raises as soon as one listed file is such a
    file, and every document it returns has a non-empty extension that
    is a key of the table. A file name whose [suffix] is empty has no
    suffixes, so its construction raises. *)
Theorem onedrive_rejects_unsupported_extension (EXT_TO_FILETYPE : list string)
    (resolve : PurePath.t -> PurePath.t)
    (standard_config : OneDrive.StandardConnectorConfig)
    (config : OneDrive.SimpleOneDriveConfig) :
  (forall file_name file_path,
      OneDrive.ext_of file_name = EmptyString \/
      OneDrive.ext_of file_name ∉ EXT_TO_FILETYPE ->
      exists e,
        OneDrive.__post_init__ EXT_TO_FILETYPE resolve standard_config config
          file_name file_path = Raise e) /\
  (forall file,
      OneDrive.ext_of (OneDrive.name file) = EmptyString \/
      OneDrive.ext_of (OneDrive.name file) ∉ EXT_TO_FILETYPE ->
      exists e,
        OneDrive._gen_ingest_doc EXT_TO_FILETYPE resolve standard_config config file
        = Raise e) /\
  (forall client root file,
      OneDrive.listing_root client config = Ok root ->
      file ∈ OneDrive._list_objects root (OneDrive.recursive config) ->
      OneDrive.ext_of (OneDrive.name file) = EmptyString \/
      OneDrive.ext_of (OneDrive.name file) ∉ EXT_TO_FILETYPE ->
      exists e,
        OneDrive.get_ingest_docs EXT_TO_FILETYPE resolve client standard_config config
        = Raise e) /\
  (forall client docs,
      OneDrive.get_ingest_docs EXT_TO_FILETYPE resolve client standard_config config
      = Ok docs ->
      Forall (fun doc =>
                OneDrive.ext doc = OneDrive.ext_of (OneDrive.file_name doc) /\
                OneDrive.ext doc <> EmptyString /\
                OneDrive.ext doc ∈ EXT_TO_FILETYPE) docs) /\
  (forall file_name file_path,
      PurePath.suffix (PurePath.of_string file_name) = EmptyString ->
      exists e,
        OneDrive.__post_init__ EXT_TO_FILETYPE resolve standard_config config
          file_name file_path = Raise e).
Proof.
  repeat split; [ | | | | intros; now apply post_init_raises_no_suffix ].
  - intros. now apply post_init_raises.
  - intros. now apply gen_ingest_doc_raises.
  - intros client root file Hroot Hin Hbad. unfold OneDrive.get_ingest_docs.
    rewrite Hroot. cbn [bind].
    destruct (gen_ingest_doc_raises EXT_TO_FILETYPE resolve standard_config config
                file Hbad) as [e He].
    now apply comprehension_raises with file e.
  - intros client docs H. unfold OneDrive.get_ingest_docs in H.
    destruct (OneDrive.listing_root client config) as [root|]; cbn [bind] in H;
      [|discriminate].
    apply comprehension_returns in H.
    induction H as [|file doc files docs Hd _ IH]; constructor; [|exact IH].
    apply gen_ingest_doc_returns in Hd as (Hn & He & Hne & Hin).
    rewrite Hn. auto.
Qed.

Lemma onedrive_rejects_unsupported_extension_witness :
  exists e,
    OneDrive.get_ingest_docs Scenario.filetypes Scenario.no_resolve Scenario.drive
      Scenario.standard_config Scenario.drive_config = Raise e.
Proof.
  apply (proj1 (proj2 (proj2 (onedrive_rejects_unsupported_extension
                                Scenario.filetypes Scenario.no_resolve
                                Scenario.standard_config Scenario.drive_config)))
           Scenario.drive (OneDrive.drive_root Scenario.drive)
           (OneDrive.mkItem "notes.xyz" "/drive/root:/reports" true false [])).
  - reflexivity.
  - apply list_elem_of_In. simpl. tauto.
  - right. intros H. apply list_elem_of_In in H. simpl in H.
    repeat (destruct H as [H|H]; [discriminate|]). exact H.
Defined.
(** ** Splitting and joining *)

Section SplitFacts.

Import PyStr.

Lemma length_append (a b : string) :
  String.length (a +:+ b) = (String.length a + String.length b)%nat.
Proof. induction a as [|c a IH]; simpl; [reflexivity | now rewrite IH]. Qed.

Lemma startswith_split (p s : string) :
  startswith p s = true -> exists r, s = p +:+ r.
Proof.
  revert s. induction p as [|a p IH]; intros s H.
  - now exists s.
  - destruct s as [|b s]; [discriminate|]. cbn [startswith] in H.
    apply andb_true_iff in H as [Hab Hp]. apply Ascii.eqb_eq in Hab. subst b.
    destruct (IH s Hp) as [r ->]. now exists r.
Qed.

Lemma split_from_skip (sep p s : string) :
  split_from sep (String.length p) (p +:+ s) = split_from sep O s.
Proof. induction p as [|a p IH]; simpl; [reflexivity | exact IH]. Qed.

Lemma join_cons_char (sep : string) (c : ascii) (h : string) (t : list string) :
  join sep (String c h :: t) = String c (join sep (h :: t)).
Proof. destruct t; reflexivity. Qed.

Lemma join_cons_empty (sep : string) (h : string) (t : list string) :
  join sep (EmptyString :: h :: t) = sep +:+ join sep (h :: t).
Proof. reflexivity. Qed.

(** Joining the pieces of a split gives the string back. *)
Lemma join_split_from (sep : string) (n : nat) :
  nonempty sep = true ->
  forall s, (String.length s <= n)%nat ->
  forall h t, split_from sep O s = (h, t) -> join sep (h :: t) = s.
Proof.
  intros Hsep. induction n as [|n IH]; intros s Hn h t H.
  - destruct s; [|cbn in Hn; lia]. cbn in H. now inversion H.
  - destruct s as [|c s]; [cbn in H; now inversion H|].
    cbn [split_from] in H. destruct (startswith sep (String c s)) eqn:E.
    + destruct (startswith_split _ _ E) as [r Hr].
      destruct sep as [|a sep']; [discriminate|].
      cbn [String.append] in Hr. injection Hr as -> ->.
      cbn [String.length Nat.pred] in H. rewrite split_from_skip in H.
      destruct (split_from (String a sep') O r) as [h' t'] eqn:Er.
      inversion H. subst h t. rewrite join_cons_empty.
      rewrite (IH r) with (h := h') (t := t'); [reflexivity | | exact Er].
      cbn [String.length] in Hn. rewrite length_append in Hn. lia.
    + destruct (split_from sep O s) as [h' t'] eqn:Er.
      inversion H. subst h t. rewrite join_cons_char.
      rewrite (IH s) with (h := h') (t := t'); [reflexivity | | exact Er].
      cbn [String.length] in Hn. lia.
Qed.

Lemma join_split (s sep : string) :
  nonempty sep = true -> join sep (split s sep) = s.
Proof.
  intros Hsep. unfold split.
  destruct (split_from sep O s) as [h t] eqn:E.
  now apply (join_split_from sep (String.length s) Hsep s (le_n _)).
Qed.

Lemma startswith_prefix_mono (p a b : string) :
  startswith p a = true -> startswith p (a +:+ b) = true.
Proof.
  revert a. induction p as [|x p IH]; intros a H; [reflexivity|].
  destruct a as [|y a]; [discriminate|]. cbn [startswith String.append] in *.
  apply andb_true_iff in H as [H1 H2]. now rewrite H1, (IH a H2).
Qed.

(** What does not occur in a string does not occur in its prefixes. *)
Lemma contains_prefix (sub a b : string) :
  contains sub (a +:+ b) = false -> contains sub a = false.
Proof.
  induction a as [|c a IH]; intros H.
  - cbn [String.append] in H. destruct sub; [destruct b; discriminate | reflexivity].
  - cbn [String.append] in H. apply contains_cons in H as [Hs Hc].
    cbn [contains]. rewrite (IH Hc), orb_false_r.
    destruct (startswith sub (String c a)) eqn:E; [|reflexivity].
    apply startswith_prefix_mono with (b := b) in E.
    cbn [String.append] in E. congruence.
Qed.

(** What does not occur in a string does not occur in its suffixes. *)
Lemma contains_suffix (sub a b : string) :
  contains sub (a +:+ b) = false -> contains sub b = false.
Proof.
  induction a as [|c a IH]; intros H; [exact H|].
  cbn [String.append] in H. apply contains_cons in H as [_ Hc]. now apply IH.
Qed.

(** No piece of a split holds the separator. *)
Lemma split_from_pieces (sep : string) (n : nat) :
  nonempty sep = true ->
  forall s, (String.length s <= n)%nat ->
  forall h t, split_from sep O s = (h, t) ->
  Forall (fun x => contains sep x = false) (h :: t).
Proof.
  intros Hsep. induction n as [|n IH]; intros s Hn h t H.
  - destruct s; [|cbn in Hn; lia]. cbn in H. inversion H.
    constructor; [|constructor]. now destruct sep.
  - destruct s as [|c s].
    { cbn in H. inversion H. constructor; [|constructor]. now destruct sep. }
    pose proof (join_split_from sep (S n) Hsep _ Hn _ _ H) as Hj.
    cbn [split_from] in H. destruct (startswith sep (String c s)) eqn:E.
    + destruct (startswith_split _ _ E) as [r Hr].
      destruct sep as [|a sep']; [discriminate|].
      cbn [String.append] in Hr. injection Hr as -> ->.
      cbn [String.length Nat.pred] in H. rewrite split_from_skip in H.
      destruct (split_from (String a sep') O r) as [h' t'] eqn:Er.
      inversion H. subst h t. constructor; [reflexivity|].
      apply (IH r); [|exact Er].
      cbn [String.length] in Hn. rewrite length_append in Hn. lia.
    + destruct (split_from sep O s) as [h' t'] eqn:Er.
      inversion H. subst h t.
      assert (Hs : (String.length s <= n)%nat) by (cbn [String.length] in Hn; lia).
      pose proof (IH s Hs _ _ Er) as Hall. inversion Hall as [|? ? Hh' Ht']. subst.
      constructor; [|exact Ht'].
      cbn [contains]. rewrite Hh', orb_false_r.
      destruct (startswith sep (String c h')) eqn:E'; [|reflexivity].
      rewrite join_cons_char in Hj. injection Hj as Hj.
      destruct t' as [|x t'].
      * cbn in Hj. subst h'. rewrite E in E'. discriminate.
      * change (join sep (h' :: x :: t')) with (h' +:+ sep +:+ join sep (x :: t')) in Hj.
        rewrite <- Hj in E.
        apply startswith_prefix_mono with (b := sep +:+ join sep (x :: t')) in E'.
        cbn [String.append] in E'. rewrite E in E'. discriminate.
Qed.

(** A split in two pieces: the string is the two pieces around the
    separator, and the separator occurs in neither. *)
Lemma split_two (s sep a b : string) :
  nonempty sep = true ->
  split s sep = [a; b] ->
  s = a +:+ sep +:+ b /\ contains sep a = false /\ contains sep b = false.
Proof.
  intros Hsep H. pose proof (join_split s sep Hsep) as Hj. rewrite H in Hj.
  unfold split in H. destruct (split_from sep O s) as [h t] eqn:E.
  pose proof (split_from_pieces sep _ Hsep s (le_n _) _ _ E) as Hall.
  inversion H. subst h t.
  inversion Hall as [|? ? Ha Hb]. inversion Hb as [|? ? Hb' _]. subst.
  repeat split; assumption.
Qed.

Lemma span_spec (p : ascii -> bool) (s a b : string) :
  span p s = (a, b) ->
  s = a +:+ b /\ str_all p a = true /\
  (b = EmptyString \/ exists c r, b = String c r /\ p c = false).
Proof.
  revert a b. induction s as [|c s IH]; intros a b H; cbn [span] in H.
  - inversion H. auto.
  - destruct (p c) eqn:E.
    + destruct (span p s) as [a' b'] eqn:Es. inversion H. subst a b.
      destruct (IH _ _ eq_refl) as (-> & Ha & Hb).
      cbn [str_all]. rewrite E, Ha. auto.
    + inversion H. subst. repeat split. right. eauto.
Qed.

(** A protocol without a colon in front of [://]. *)
Lemma split_colon_free (p rest : string) :
  str_all (fun c => negb (Ascii.eqb c ":")) p = true ->
  contains "://" rest = false ->
  split (p +:+ "://" +:+ rest) "://" = [p; rest].
Proof.
  intros Hp Hr. unfold split. induction p as [|c p IH].
  - cbn. now rewrite (split_from_absent _ _ Hr).
  - cbn [str_all] in Hp. apply andb_true_iff in Hp as [Hc Hp].
    change (String c p +:+ "://" +:+ rest) with (String c (p +:+ "://" +:+ rest)).
    cbn [split_from]. unfold startswith at 1. fold startswith.
    apply negb_true_iff in Hc. rewrite Ascii.eqb_sym in Hc. rewrite Hc. cbn [andb].
    specialize (IH Hp). destruct (split_from "://" O (p +:+ "://" +:+ rest)) as [h t].
    inversion IH. subst. reflexivity.
Qed.

(** Where the separator occurs, a split has more than one piece. *)
Lemma split_from_present (sep s : string) :
  nonempty sep = true -> contains sep s = true -> snd (split_from sep O s) <> [].
Proof.
  intros Hsep. induction s as [|c s IH]; intros H.
  - destruct sep; discriminate.
  - cbn [contains] in H. cbn [split_from].
    destruct (startswith sep (String c s)) eqn:E.
    + cbn [snd]. destruct (split_from sep (Nat.pred (String.length sep)) s). discriminate.
    + cbn [orb] in H. specialize (IH H).
      destruct (split_from sep O s) as [h t]. exact IH.
Qed.

Lemma split_colon_free_head (p rest : string) :
  str_all (fun c => negb (Ascii.eqb c ":")) p = true ->
  split (p +:+ "://" +:+ rest) "://" = p :: split rest "://".
Proof.
  intros Hp. unfold split. induction p as [|c p IH].
  - cbn. now destruct (split_from "://" O rest).
  - cbn [str_all] in Hp. apply andb_true_iff in Hp as [Hc Hp].
    change (String c p +:+ "://" +:+ rest) with (String c (p +:+ "://" +:+ rest)).
    cbn [split_from]. unfold startswith at 1. fold startswith.
    apply negb_true_iff in Hc. rewrite Ascii.eqb_sym in Hc. rewrite Hc. cbn [andb].
    specialize (IH Hp). destruct (split_from "://" O (p +:+ "://" +:+ rest)) as [h t].
    destruct (split_from "://" O rest) as [h' t']. inversion IH. subst. reflexivity.
Qed.

End SplitFacts.

(** ** More on resolving a location *)

Section ResolutionCases.

Import PyStr Fsspec.

Lemma supported_colon_free (p : string) :
  p ∈ SUPPORTED_REMOTE_FSSPEC_PROTOCOLS ->
  str_all (fun c => negb (Ascii.eqb c ":")) p = true.
Proof.
  intros Hp. unfold SUPPORTED_REMOTE_FSSPEC_PROTOCOLS in Hp.
  repeat (apply elem_of_cons in Hp as [-> | Hp]; [reflexivity|]).
  now apply elem_of_nil in Hp.
Qed.

(** What [__post_init__] does once the protocol is split off and found
    supported. *)
Lemma post_init_supported (p rest : string) (recursive : bool) (kw : gmap string string) :
  p ∈ SUPPORTED_REMOTE_FSSPEC_PROTOCOLS ->
  contains "://" rest = false ->
  let path := p +:+ "://" +:+ rest in
  let config := mkConfig path recursive kw p rest in
  __post_init__ path recursive kw
  = match match_empty_root p path, String.eqb p "dropbox" with
    | Some _, true => Ok (config " " EmptyString)
    | _, _ =>
        match match_root_only p path with
        | Some (g1, _) => Ok (config g1 EmptyString)
        | None =>
            match match_dir_file p path with
            | Some (g1, g2) => Ok (config g1 g2)
            | None =>
                Raise (ValueError ("Invalid path " +:+ path +:+
                  ". Expected <protocol>://<dir-path>/<file-or-dir-path>."))
            end
        end
    end.
Proof.
  intros Hp Hr path config. unfold __post_init__.
  unfold path at 1. rewrite (split_colon_free _ _ (supported_colon_free _ Hp) Hr).
  destruct (decide (p ∈ SUPPORTED_REMOTE_FSSPEC_PROTOCOLS)); [reflexivity | contradiction].
Qed.

(** With [://] again after the protocol, the unpacking raises. *)
Lemma post_init_second_scheme (p rest : string) (recursive : bool)
    (kw : gmap string string) :
  str_all (fun c => negb (Ascii.eqb c ":")) p = true ->
  contains "://" rest = true ->
  __post_init__ (p +:+ "://" +:+ rest) recursive kw
  = Raise (ValueError "too many values to unpack (expected 2)").
Proof.
  intros Hp Hr. unfold __post_init__. rewrite (split_colon_free_head _ _ Hp).
  pose proof (split_from_present "://" rest eq_refl Hr) as Hne.
  unfold split. destruct (split_from "://" O rest) as [h [|x t]];
    [now exfalso; apply Hne | reflexivity].
Qed.

Lemma root_only_groups (p rest g1 g2 : string) :
  match_root_only p (p +:+ "://" +:+ rest) = Some (g1, g2) ->
  exists e, rest = g1 +:+ g2 +:+ e /\ nonempty g1 = true /\
            str_all is_dir_char g1 = true /\ str_all is_slash g2 = true /\
            at_end e = true.
Proof.
  unfold match_root_only. rewrite strip_protocol.
  destruct (span is_dir_char rest) as [name after] eqn:E1.
  destruct (span is_slash after) as [seps tl] eqn:E2.
  destruct (nonempty name && at_end tl) eqn:E; [|discriminate].
  apply andb_true_iff in E as [Hn He]. intros H. inversion H. subst g1 g2.
  apply span_spec in E1 as (-> & Hd & _). apply span_spec in E2 as (-> & Hs & _).
  eauto 10.
Qed.

Lemma dir_file_groups_inv (p rest g1 g2 : string) :
  match_dir_file p (p +:+ "://" +:+ rest) = Some (g1, g2) ->
  exists tl, rest = g1 +:+ "/" +:+ g2 +:+ tl /\ nonempty g1 = true /\
             str_all is_dir_char g1 = true /\ str_all is_file_char g2 = true /\
             (tl = EmptyString \/ exists c r, tl = String c r /\ is_space c = true).
Proof.
  unfold match_dir_file. rewrite strip_protocol.
  destruct (span is_dir_char rest) as [name after] eqn:E1.
  destruct after as [|c tl]; [discriminate|].
  destruct (nonempty name && is_slash c) eqn:E; [|discriminate].
  apply andb_true_iff in E as [Hn Hc]. apply Ascii.eqb_eq in Hc. subst c.
  destruct (span is_file_char tl) as [f tl'] eqn:E2. cbn [fst].
  intros H. inversion H. subst g1 g2.
  apply span_spec in E1 as (-> & Hd & _). apply span_spec in E2 as (-> & Hf & Htl).
  exists tl'. repeat split; try assumption.
  destruct Htl as [->|(c & r & -> & Hc)]; [now left|right].
  exists c, r. split; [reflexivity|]. unfold is_file_char in Hc.
  now apply negb_false_iff in Hc.
Qed.

Lemma empty_root_inv (p rest g : string) :
  match_empty_root p (p +:+ "://" +:+ rest) = Some g ->
  exists c tl, rest = String c (String slash tl) /\ is_space c = true.
Proof.
  unfold match_empty_root. rewrite strip_protocol.
  destruct rest as [|c [|d tl]]; try discriminate.
  destruct (is_space c && is_slash d) eqn:E; [|discriminate].
  apply andb_true_iff in E as [Hc Hd]. apply Ascii.eqb_eq in Hd. subst d.
  intros _. eauto.
Qed.

(** The three ways [__post_init__] returns. *)
Lemma post_init_cases (path : string) (recursive : bool) (kw : gmap string string)
    (config : SimpleFsspecConfig) :
  __post_init__ path recursive kw = Ok config ->
  exists p rest d f,
    config = mkConfig path recursive kw p rest d f /\
    path = p +:+ "://" +:+ rest /\
    contains "://" rest = false /\
    p ∈ SUPPORTED_REMOTE_FSSPEC_PROTOCOLS /\
    ((p = "dropbox" /\ d = " " /\ f = EmptyString /\
      exists c tl, rest = String c (String slash tl) /\ is_space c = true)
     \/ (f = EmptyString /\
         exists seps e, rest = d +:+ seps +:+ e /\ nonempty d = true /\
           str_all is_dir_char d = true /\ str_all is_slash seps = true /\
           at_end e = true)
     \/ (exists tl, rest = d +:+ "/" +:+ f +:+ tl /\ nonempty d = true /\
           str_all is_dir_char d = true /\ str_all is_file_char f = true /\
           (tl = EmptyString \/ exists c r, tl = String c r /\ is_space c = true))).
Proof.
  intros H. pose proof H as H0. unfold __post_init__ in H0.
  destruct (split path "://") as [|p [|rest [|x l]]] eqn:Es; try discriminate.
  destruct (split_two path "://" p rest eq_refl Es) as (Hpath & _ & Hrest).
  destruct (decide (p ∈ SUPPORTED_REMOTE_FSSPEC_PROTOCOLS)) as [Hp|]; [|discriminate].
  clear H0. subst path. rewrite (post_init_supported _ _ recursive kw Hp Hrest) in H.
  cbv zeta in H.
  exists p, rest.
  assert (Hgen :
    match match_root_only p (p +:+ "://" +:+ rest) with
    | Some (g1, _) => Ok (mkConfig (p +:+ "://" +:+ rest) recursive kw p rest g1 EmptyString)
    | None =>
        match match_dir_file p (p +:+ "://" +:+ rest) with
        | Some (g1, g2) => Ok (mkConfig (p +:+ "://" +:+ rest) recursive kw p rest g1 g2)
        | None =>
            Raise (ValueError ("Invalid path " +:+ (p +:+ "://" +:+ rest) +:+
              ". Expected <protocol>://<dir-path>/<file-or-dir-path>."))
        end
    end = Ok config ->
    exists d f,
      config = mkConfig (p +:+ "://" +:+ rest) recursive kw p rest d f /\
      ((f = EmptyString /\
         exists seps e, rest = d +:+ seps +:+ e /\ nonempty d = true /\
           str_all is_dir_char d = true /\ str_all is_slash seps = true /\
           at_end e = true)
       \/ (exists tl, rest = d +:+ "/" +:+ f +:+ tl /\ nonempty d = true /\
           str_all is_dir_char d = true /\ str_all is_file_char f = true /\
           (tl = EmptyString \/ exists c r, tl = String c r /\ is_space c = true)))).
  { destruct (match_root_only p _) as [[g1 g2]|] eqn:E2.
    - intros G. inversion G. destruct (root_only_groups _ _ _ _ E2) as (e & He).
      exists g1, EmptyString. split; [reflexivity|]. left. split; [reflexivity|].
      exists g2, e. exact He.
    - destruct (match_dir_file p _) as [[g1 g2]|] eqn:E3; [|discriminate].
      intros G. inversion G. destruct (dir_file_groups_inv _ _ _ _ E3) as (tl & Htl).
      exists g1, g2. split; [reflexivity|]. right. exists tl. exact Htl. }
  destruct (match_empty_root p _) as [g|] eqn:E1.
  - destruct (String.eqb p "dropbox") eqn:Ed.
    + apply String.eqb_eq in Ed. inversion H.
      destruct (empty_root_inv _ _ _ E1) as (c & tl & Hc).
      exists " ", EmptyString. repeat split; try assumption.
      left. repeat split; try assumption. exists c, tl. exact Hc.
    + destruct (Hgen H) as (d & f & Hc & Hd). exists d, f.
      repeat split; try assumption. now right.
  - destruct (Hgen H) as (d & f & Hc & Hd). exists d, f.
    repeat split; try assumption. now right.
Qed.

End ResolutionCases.

Section ResolutionForward.

Import PyStr Fsspec.

Lemma span_app (p : ascii -> bool) (a b : string) :
  str_all p a = true ->
  match b with EmptyString => true | String c _ => negb (p c) end = true ->
  span p (a +:+ b) = (a, b).
Proof.
  intros Ha Hb. destruct b as [|c b].
  - rewrite append_empty_r. now apply span_all.
  - apply span_app_stop; [exact Ha | now apply negb_true_iff].
Qed.

Lemma at_end_not_dir_char (e : string) :
  at_end e = true ->
  match e with EmptyString => true | String c _ => negb (is_dir_char c) end = true.
Proof.
  destruct e as [|c [|d e]]; try discriminate; [reflexivity|].
  cbn [at_end]. intros H. apply Ascii.eqb_eq in H. now subst c.
Qed.

Lemma at_end_not_slash (e : string) :
  at_end e = true ->
  match e with EmptyString => true | String c _ => negb (is_slash c) end = true.
Proof.
  destruct e as [|c [|d e]]; try discriminate; [reflexivity|].
  cbn [at_end]. intros H. apply Ascii.eqb_eq in H. now subst c.
Qed.

Lemma slashes_then_end (seps e : string) :
  str_all is_slash seps = true -> at_end e = true ->
  match seps +:+ e with
  | EmptyString => true
  | String c _ => negb (is_dir_char c)
  end = true.
Proof.
  intros Hs He. destruct seps as [|c seps].
  - now apply at_end_not_dir_char.
  - cbn [str_all] in Hs. apply andb_true_iff in Hs as [Hc _].
    apply Ascii.eqb_eq in Hc. now subst c.
Qed.

Lemma root_only_matches (p bucket seps e : string) :
  nonempty bucket = true ->
  str_all is_dir_char bucket = true ->
  str_all is_slash seps = true ->
  at_end e = true ->
  match_root_only p (p +:+ "://" +:+ bucket +:+ seps +:+ e) = Some (bucket, seps).
Proof.
  intros Hne Hb Hs He. unfold match_root_only. rewrite strip_protocol.
  rewrite (span_app _ _ _ Hb (slashes_then_end _ _ Hs He)).
  rewrite (span_app _ _ _ Hs (at_end_not_slash _ He)).
  now rewrite Hne, He.
Qed.

Lemma post_init_root_only (p bucket seps e : string) (recursive : bool)
    (kw : gmap string string) :
  p ∈ SUPPORTED_REMOTE_FSSPEC_PROTOCOLS ->
  nonempty bucket = true ->
  str_all is_dir_char bucket = true ->
  str_all is_slash seps = true ->
  at_end e = true ->
  contains "://" (bucket +:+ seps +:+ e) = false ->
  __post_init__ (p +:+ "://" +:+ bucket +:+ seps +:+ e) recursive kw
  = Ok (mkConfig (p +:+ "://" +:+ bucket +:+ seps +:+ e) recursive kw
          p (bucket +:+ seps +:+ e) bucket EmptyString).
Proof.
  intros Hp Hne Hb Hs He Hsep.
  rewrite (post_init_supported _ _ recursive kw Hp Hsep). cbv zeta.
  rewrite (no_empty_root _ _ _ Hne Hb).
  now rewrite (root_only_matches _ _ _ _ Hne Hb Hs He).
Qed.

(** Without a name at its start, the text after the protocol matches
    neither the root-only nor the general pattern. *)
Lemma nameless_no_match (p rest : string) :
  match rest with EmptyString => true | String c _ => negb (is_dir_char c) end = true ->
  match_root_only p (p +:+ "://" +:+ rest) = None /\
  match_dir_file p (p +:+ "://" +:+ rest) = None.
Proof.
  intros H. unfold match_root_only, match_dir_file. rewrite strip_protocol.
  destruct rest as [|c rest]; cbn [span].
  - split; reflexivity.
  - apply negb_true_iff in H. rewrite H. cbn [nonempty andb].
    split; [|reflexivity]. now destruct (span is_slash (String c rest)).
Qed.

End ResolutionForward.

(** X1. A location string without [://] is rejected: the unpacking of the
    split finds one value where it expects two. *)
Theorem location_without_scheme_rejected (path : string) (recursive : bool)
    (kw : gmap string string) :
  PyStr.contains "://" path = false ->
  Fsspec.__post_init__ path recursive kw
  = Raise (ValueError "not enough values to unpack (expected 2, got 1)").
Proof.
  intros H. unfold Fsspec.__post_init__, PyStr.split.
  now rewrite (split_from_absent _ _ H).
Qed.

Lemma location_without_scheme_rejected_witness :
  Fsspec.__post_init__ "bucket/a/b.txt" false ∅
  = Raise (ValueError "not enough values to unpack (expected 2, got 1)").
Proof. apply location_without_scheme_rejected. reflexivity. Defined.

(** X2. A location whose protocol is not one of the supported ones is
    always rejected: with the error that names the protocol when [://]
    does not occur again after it, and with the error of the unpacking
    when it does. *)
Theorem unsupported_protocol_rejected (p rest : string) (recursive : bool)
    (kw : gmap string string) :
  PyStr.str_all (fun c => negb (Ascii.eqb c ":")) p = true ->
  p ∉ Fsspec.SUPPORTED_REMOTE_FSSPEC_PROTOCOLS ->
  Fsspec.__post_init__ (p +:+ "://" +:+ rest) recursive kw
  = Raise (ValueError
      (if PyStr.contains "://" rest
       then "too many values to unpack (expected 2)"
       else "Protocol " +:+ p +:+ " not supported yet, only "
            +:+ "['s3', 's3a', 'abfs', 'az', 'gs', 'gcs', 'box', 'dropbox']"
            +:+ " are supported.")).
Proof.
  intros Hp Hn. destruct (PyStr.contains "://" rest) eqn:Hr.
  - now apply post_init_second_scheme.
  - unfold Fsspec.__post_init__. rewrite (split_colon_free _ _ Hp Hr).
    destruct (decide (p ∈ Fsspec.SUPPORTED_REMOTE_FSSPEC_PROTOCOLS)); [contradiction|].
    reflexivity.
Qed.

Lemma unsupported_protocol_rejected_witness :
  Fsspec.__post_init__ ("ftp" +:+ "://" +:+ "host/http://x") false ∅
  = Raise (ValueError
      (if PyStr.contains "://" "host/http://x"
       then "too many values to unpack (expected 2)"
       else "Protocol " +:+ "ftp" +:+ " not supported yet, only "
            +:+ "['s3', 's3a', 'abfs', 'az', 'gs', 'gcs', 'box', 'dropbox']"
            +:+ " are supported.")).
Proof.
  apply unsupported_protocol_rejected; [reflexivity |].
  intros H. apply list_elem_of_In in H. simpl in H.
  repeat (destruct H as [H|H]; [discriminate|]). exact H.
Defined.

Example unsupported_protocol_errors :
  Fsspec.__post_init__ "ftp://host/file.txt" false ∅
  = Raise (ValueError "Protocol ftp not supported yet, only ['s3', 's3a', 'abfs', 'az', 'gs', 'gcs', 'box', 'dropbox'] are supported.") /\
  Fsspec.__post_init__ "ftp://host/http://x" false ∅
  = Raise (ValueError "too many values to unpack (expected 2)").
Proof. split; reflexivity. Qed.

(** X3. Every configuration [__post_init__] returns keeps the three
    fields it was given, has a supported protocol, a path that is the
    protocol, [://] and the path without protocol, no further [://], a
    non-empty directory without separator and a file part without white
    space; the directory is the single space of the dropbox root or the
    white-space-free start of the path without protocol. *)
Theorem config_invariants (path : string) (recursive : bool) (kw : gmap string string)
    (config : Fsspec.SimpleFsspecConfig) :
  Fsspec.__post_init__ path recursive kw = Ok config ->
  Fsspec.path config = path /\
  Fsspec.recursive config = recursive /\
  Fsspec.access_kwargs config = kw /\
  Fsspec.protocol config ∈ Fsspec.SUPPORTED_REMOTE_FSSPEC_PROTOCOLS /\
  path = Fsspec.protocol config +:+ "://" +:+ Fsspec.path_without_protocol config /\
  PyStr.contains "://" (Fsspec.path_without_protocol config) = false /\
  PyStr.nonempty (Fsspec.dir_path config) = true /\
  PyStr.contains "/" (Fsspec.dir_path config) = false /\
  PyStr.str_all Fsspec.is_file_char (Fsspec.file_path config) = true /\
  ((Fsspec.dir_path config = " " /\ Fsspec.protocol config = "dropbox") \/
   (PyStr.str_all Fsspec.is_dir_char (Fsspec.dir_path config) = true /\
    PyStr.startswith (Fsspec.dir_path config) (Fsspec.path_without_protocol config) = true)).
Proof.
  intros H. destruct (post_init_cases _ _ _ _ H) as (p & rest & d & f & -> & Hpath & Hsep & Hp & Hc).
  cbn [Fsspec.path Fsspec.recursive Fsspec.access_kwargs Fsspec.protocol
       Fsspec.path_without_protocol Fsspec.dir_path Fsspec.file_path].
  assert (Hslash : forall s, PyStr.str_all Fsspec.is_dir_char s = true ->
                             PyStr.contains "/" s = false).
  { induction s as [|c s IH]; [reflexivity|]. cbn [PyStr.str_all]. intros Hs.
    apply andb_true_iff in Hs as [Hc' Hs]. cbn [PyStr.contains PyStr.startswith].
    rewrite (IH Hs). apply dir_char_not_slash in Hc'. unfold PyStr.is_slash, PyStr.slash in Hc'.
    rewrite Ascii.eqb_sym. now rewrite Hc'. }
  repeat split; try assumption.
  - destruct Hc as [(_ & -> & _)|[(_ & _ & _ & _ & Hn & _)|(_ & _ & Hn & _)]];
      [reflexivity | exact Hn | exact Hn].
  - destruct Hc as [(_ & -> & _)|[(_ & _ & _ & _ & _ & Hd & _)|(_ & _ & _ & Hd & _)]];
      [reflexivity | now apply Hslash | now apply Hslash].
  - destruct Hc as [(_ & _ & -> & _)|[(-> & _)|(_ & _ & _ & _ & Hf & _)]];
      [reflexivity | reflexivity | exact Hf].
  - destruct Hc as [(-> & -> & _)|[(_ & seps & e & -> & _ & Hd & _)|(tl & -> & _ & Hd & _)]].
    + now left.
    + right. split; [exact Hd | apply startswith_app].
    + right. split; [exact Hd | apply startswith_app].
Qed.

Lemma config_invariants_witness :
  Fsspec.path Scenario.docs_config = "s3://bucket/docs" /\
  Fsspec.recursive Scenario.docs_config = true /\
  Fsspec.access_kwargs Scenario.docs_config = ∅ /\
  Fsspec.protocol Scenario.docs_config ∈ Fsspec.SUPPORTED_REMOTE_FSSPEC_PROTOCOLS /\
  "s3://bucket/docs" = Fsspec.protocol Scenario.docs_config +:+ "://"
                         +:+ Fsspec.path_without_protocol Scenario.docs_config /\
  PyStr.contains "://" (Fsspec.path_without_protocol Scenario.docs_config) = false /\
  PyStr.nonempty (Fsspec.dir_path Scenario.docs_config) = true /\
  PyStr.contains "/" (Fsspec.dir_path Scenario.docs_config) = false /\
  PyStr.str_all Fsspec.is_file_char (Fsspec.file_path Scenario.docs_config) = true /\
  ((Fsspec.dir_path Scenario.docs_config = " " /\
    Fsspec.protocol Scenario.docs_config = "dropbox") \/
   (PyStr.str_all Fsspec.is_dir_char (Fsspec.dir_path Scenario.docs_config) = true /\
    PyStr.startswith (Fsspec.dir_path Scenario.docs_config)
      (Fsspec.path_without_protocol Scenario.docs_config) = true)).
Proof. apply (config_invariants "s3://bucket/docs" true ∅). reflexivity. Defined.

Lemma str_all_app (p : ascii -> bool) (a b : string) :
  PyStr.str_all p (a +:+ b) = PyStr.str_all p a && PyStr.str_all p b.
Proof.
  induction a as [|c a IH]; [reflexivity|].
  cbn [String.append PyStr.str_all]. rewrite IH. now rewrite andb_assoc.
Qed.

(** X4. The root-only case: for a supported protocol, a bucket name
    without separator or white space, any number of trailing separators
    and nothing else but an optional final line feed, the location
    resolves to the bucket as directory and the empty file as long as
    [://] does not occur again after the protocol; when it does, as for a
    bucket name that ends with a colon before two separators, the
    location is rejected with the error of the unpacking. *)
Theorem resolve_root_only_case (p bucket seps e : string) (recursive : bool)
    (kw : gmap string string) :
  p ∈ Fsspec.SUPPORTED_REMOTE_FSSPEC_PROTOCOLS ->
  PyStr.nonempty bucket = true ->
  PyStr.str_all Fsspec.is_dir_char bucket = true ->
  PyStr.str_all PyStr.is_slash seps = true ->
  Fsspec.at_end e = true ->
  (PyStr.contains "://" (bucket +:+ seps +:+ e) = false ->
   exists config,
     Fsspec.__post_init__ (p +:+ "://" +:+ bucket +:+ seps +:+ e) recursive kw = Ok config /\
     Fsspec.protocol config = p /\
     Fsspec.path_without_protocol config = bucket +:+ seps +:+ e /\
     Fsspec.dir_path config = bucket /\
     Fsspec.file_path config = EmptyString) /\
  (PyStr.contains "://" (bucket +:+ seps +:+ e) = true ->
   Fsspec.__post_init__ (p +:+ "://" +:+ bucket +:+ seps +:+ e) recursive kw
   = Raise (ValueError "too many values to unpack (expected 2)")).
Proof.
  intros Hp Hne Hb Hs He. split; intros Hsep.
  - eexists. split; [now apply post_init_root_only | repeat split].
  - apply post_init_second_scheme; [now apply supported_colon_free | exact Hsep].
Qed.

Lemma resolve_root_only_case_witness :
  exists config,
    Fsspec.__post_init__ ("gs" +:+ "://" +:+ "bucket" +:+ "///" +:+ EmptyString) false ∅
      = Ok config /\
    Fsspec.protocol config = "gs" /\
    Fsspec.path_without_protocol config = "bucket" +:+ "///" +:+ EmptyString /\
    Fsspec.dir_path config = "bucket" /\
    Fsspec.file_path config = EmptyString.
Proof.
  apply (proj1 (resolve_root_only_case "gs" "bucket" "///" EmptyString false ∅
                  ltac:(vm_compute; repeat constructor) eq_refl eq_refl eq_refl eq_refl)).
  reflexivity.
Defined.

Example root_only_with_colon :
  Fsspec.__post_init__ "s3://a://" false ∅
  = Raise (ValueError "too many values to unpack (expected 2)").
Proof. reflexivity. Qed.

(** X5. For the dropbox protocol the empty-root case takes any white
    space character before the separator and does not look at what
    follows the separator: as long as [://] does not occur again after
    the protocol, the directory is the single space and the file is
    empty; when [://] occurs again the location is rejected with the
    error of the unpacking. *)
Theorem resolve_empty_root_any_space (c : ascii) (tl : string) (recursive : bool)
    (kw : gmap string string) :
  PyStr.is_space c = true ->
  (PyStr.contains "://" (String c (String PyStr.slash tl)) = false ->
   exists config,
     Fsspec.__post_init__ ("dropbox://" +:+ String c (String PyStr.slash tl)) recursive kw
       = Ok config /\
     Fsspec.dir_path config = " " /\
     Fsspec.file_path config = EmptyString /\
     Fsspec.path_without_protocol config = String c (String PyStr.slash tl)) /\
  (PyStr.contains "://" (String c (String PyStr.slash tl)) = true ->
   Fsspec.__post_init__ ("dropbox://" +:+ String c (String PyStr.slash tl)) recursive kw
   = Raise (ValueError "too many values to unpack (expected 2)")).
Proof.
  intros Hc.
  assert (Hp : "dropbox" ∈ Fsspec.SUPPORTED_REMOTE_FSSPEC_PROTOCOLS)
    by (vm_compute; repeat constructor).
  split; intros Hsep.
  - pose proof (post_init_supported "dropbox" _ recursive kw Hp Hsep) as H.
    cbv zeta in H.
    change ("dropbox" +:+ "://" +:+ String c (String PyStr.slash tl))
      with ("dropbox://" +:+ String c (String PyStr.slash tl)) in H.
    assert (Hm : Fsspec.match_empty_root "dropbox"
                   ("dropbox://" +:+ String c (String PyStr.slash tl))
                 = Some (String c EmptyString)).
    { cbn. now rewrite Hc. }
    rewrite Hm in H. cbn [String.eqb] in H.
    eexists. split; [exact H|]. repeat split.
  - change ("dropbox://" +:+ String c (String PyStr.slash tl))
      with ("dropbox" +:+ "://" +:+ String c (String PyStr.slash tl)).
    apply post_init_second_scheme; [reflexivity | exact Hsep].
Qed.

Lemma resolve_empty_root_any_space_witness :
  exists config,
    Fsspec.__post_init__ ("dropbox://" +:+ String "009" (String PyStr.slash "Photos/a.jpg"))
      false ∅ = Ok config /\
    Fsspec.dir_path config = " " /\
    Fsspec.file_path config = EmptyString /\
    Fsspec.path_without_protocol config = String "009" (String PyStr.slash "Photos/a.jpg").
Proof.
  apply (proj1 (resolve_empty_root_any_space "009" "Photos/a.jpg" false ∅ eq_refl)).
  reflexivity.
Defined.

Example empty_root_with_second_scheme :
  Fsspec.__post_init__ "dropbox:// /a://b" false ∅
  = Raise (ValueError "too many values to unpack (expected 2)").
Proof. reflexivity. Qed.

(** X6. A location without a bucket is always rejected, for every
    supported protocol when nothing or a separator follows [://], and for
    every supported protocol but dropbox when white space follows: as an
    invalid path when [://] does not occur again after the protocol, and
    with the error of the unpacking when it does. *)
Theorem resolve_missing_bucket_rejected (p rest : string) (recursive : bool)
    (kw : gmap string string) :
  p ∈ Fsspec.SUPPORTED_REMOTE_FSSPEC_PROTOCOLS ->
  (rest = EmptyString \/
   (exists tl, rest = String PyStr.slash tl) \/
   (p <> "dropbox" /\ exists c tl, rest = String c tl /\ PyStr.is_space c = true)) ->
  Fsspec.__post_init__ (p +:+ "://" +:+ rest) recursive kw
  = Raise (ValueError
      (if PyStr.contains "://" rest
       then "too many values to unpack (expected 2)"
       else "Invalid path " +:+ (p +:+ "://" +:+ rest) +:+
            ". Expected <protocol>://<dir-path>/<file-or-dir-path>.")).
Proof.
  intros Hp Hrest. destruct (PyStr.contains "://" rest) eqn:Hsep.
  { apply post_init_second_scheme; [now apply supported_colon_free | exact Hsep]. }
  rewrite (post_init_supported _ _ recursive kw Hp Hsep). cbv zeta.
  assert (Hnm : match rest with
                | EmptyString => true
                | String c _ => negb (Fsspec.is_dir_char c)
                end = true).
  { destruct Hrest as [->|[(tl & ->)|(_ & c & tl & -> & Hc)]]; try reflexivity.
    unfold Fsspec.is_dir_char. rewrite Hc. now rewrite andb_false_r. }
  destruct (nameless_no_match p rest Hnm) as [H2 H3]. rewrite H2, H3.
  destruct (Fsspec.match_empty_root p (p +:+ "://" +:+ rest)) as [g|] eqn:E1; [|reflexivity].
  destruct (String.eqb p "dropbox") eqn:Ed; [|reflexivity].
  apply String.eqb_eq in Ed. exfalso.
  destruct (empty_root_inv _ _ _ E1) as (c & tl & Hr & Hc).
  destruct Hrest as [->|[(tl' & ->)|(Hnd & _)]]; [discriminate | | contradiction].
  inversion Hr. subst c. discriminate.
Qed.

Lemma resolve_missing_bucket_rejected_witness :
  Fsspec.__post_init__ ("s3" +:+ "://" +:+ "/a/b.txt") false ∅
  = Raise (ValueError
      (if PyStr.contains "://" "/a/b.txt"
       then "too many values to unpack (expected 2)"
       else "Invalid path " +:+ ("s3" +:+ "://" +:+ "/a/b.txt") +:+
            ". Expected <protocol>://<dir-path>/<file-or-dir-path>.")).
Proof.
  apply resolve_missing_bucket_rejected.
  - vm_compute; repeat constructor.
  - right. left. exists "a/b.txt". reflexivity.
Defined.

Example missing_bucket_errors :
  Fsspec.__post_init__ "s3:///a/b.txt" false ∅
  = Raise (ValueError "Invalid path s3:///a/b.txt. Expected <protocol>://<dir-path>/<file-or-dir-path>.") /\
  Fsspec.__post_init__ "s3:///a://b" false ∅
  = Raise (ValueError "too many values to unpack (expected 2)").
Proof. split; reflexivity. Qed.

(** X7. The file part ends at the first white space. For a supported
    protocol, a bucket, a separator, a text without white space, a white
    space character and anything after it: when [://] does not occur
    again after the protocol, the location resolves, the path without
    protocol keeps everything, and the file part is the text before the
    white space, except that it is empty when that text is made of
    separators only and the white space is a line feed that ends the
    string, where the root-only pattern matches; when [://] occurs again
    the location is rejected with the error of the unpacking. *)
Theorem resolve_file_stops_at_space (p bucket f : string) (c : ascii) (tl : string)
    (recursive : bool) (kw : gmap string string) :
  p ∈ Fsspec.SUPPORTED_REMOTE_FSSPEC_PROTOCOLS ->
  PyStr.nonempty bucket = true ->
  PyStr.str_all Fsspec.is_dir_char bucket = true ->
  PyStr.str_all Fsspec.is_file_char f = true ->
  PyStr.is_space c = true ->
  (PyStr.contains "://" (bucket +:+ "/" +:+ f +:+ String c tl) = false ->
   exists config,
     Fsspec.__post_init__ (p +:+ "://" +:+ bucket +:+ "/" +:+ f +:+ String c tl) recursive kw
       = Ok config /\
     Fsspec.dir_path config = bucket /\
     Fsspec.file_path config
     = (if PyStr.str_all PyStr.is_slash f && Fsspec.at_end (String c tl)
        then EmptyString else f) /\
     Fsspec.path_without_protocol config = bucket +:+ "/" +:+ f +:+ String c tl) /\
  (PyStr.contains "://" (bucket +:+ "/" +:+ f +:+ String c tl) = true ->
   Fsspec.__post_init__ (p +:+ "://" +:+ bucket +:+ "/" +:+ f +:+ String c tl) recursive kw
   = Raise (ValueError "too many values to unpack (expected 2)")).
Proof.
  intros Hp Hne Hb Hf Hc. split; intros Hsep;
    [|apply post_init_second_scheme; [now apply supported_colon_free | exact Hsep]].
  destruct (PyStr.str_all PyStr.is_slash f && Fsspec.at_end (String c tl)) eqn:Hro.
  { (* the root-only pattern matches *)
    apply andb_true_iff in Hro as [Hs He].
    assert (Hs' : PyStr.str_all PyStr.is_slash ("/" +:+ f) = true)
      by (cbn [String.append PyStr.str_all]; now rewrite Hs).
    pose proof (post_init_root_only p bucket ("/" +:+ f) (String c tl) recursive kw
                  Hp Hne Hb Hs' He) as G.
    change (bucket +:+ ("/" +:+ f) +:+ String c tl)
      with (bucket +:+ "/" +:+ f +:+ String c tl) in G.
    eexists. split; [exact (G Hsep)|]. repeat split. }
  assert (Hnot : PyStr.str_all PyStr.is_slash f = false \/ Fsspec.at_end (String c tl) = false)
    by (now apply andb_false_iff in Hro).
  clear Hro.
  rewrite (post_init_supported _ _ recursive kw Hp Hsep). cbv zeta.
  rewrite (no_empty_root _ _ _ Hne Hb).
  assert (Hfc : Fsspec.is_file_char c = false)
    by (unfold Fsspec.is_file_char; now rewrite Hc).
  assert (Hcs : PyStr.is_slash c = false).
  { destruct (PyStr.is_slash c) eqn:E; [|reflexivity].
    apply Ascii.eqb_eq in E. subst c. discriminate. }
  assert (H2 : Fsspec.match_root_only p
                 (p +:+ "://" +:+ bucket +:+ "/" +:+ f +:+ String c tl) = None).
  { unfold Fsspec.match_root_only. rewrite strip_protocol.
    change ("/" +:+ f +:+ String c tl) with (String PyStr.slash (f +:+ String c tl)).
    rewrite (span_app_stop _ _ _ _ Hb slash_not_dir_char).
    destruct (PyStr.span PyStr.is_slash f) as [a b] eqn:Ef.
    apply span_spec in Ef as (Hf' & Ha & Hb').
    assert (Ha' : PyStr.str_all PyStr.is_slash (String PyStr.slash a) = true)
      by (cbn [PyStr.str_all]; now rewrite Ha).
    destruct Hb' as [->|(x & r & -> & Hx)].
    - rewrite append_empty_r in Hf'. subst f.
      change (String PyStr.slash (a +:+ String c tl))
        with (String PyStr.slash a +:+ String c tl).
      rewrite (span_app_stop _ _ _ _ Ha' Hcs).
      destruct Hnot as [Hns|He]; [congruence|]. rewrite He. now rewrite andb_false_r.
    - subst f. rewrite append_assoc.
      change (String PyStr.slash (a +:+ String x r +:+ String c tl))
        with (String PyStr.slash a +:+ String x (r +:+ String c tl)).
      rewrite (span_app_stop _ _ _ _ Ha' Hx).
      rewrite str_all_app in Hf. apply andb_true_iff in Hf as [_ Hxr].
      cbn [PyStr.str_all] in Hxr. apply andb_true_iff in Hxr as [Hxf _].
      rewrite (at_end_file_char _ _ Hxf). now rewrite andb_false_r. }
  rewrite H2.
  assert (H3 : Fsspec.match_dir_file p
                 (p +:+ "://" +:+ bucket +:+ "/" +:+ f +:+ String c tl)
               = Some (bucket, f)).
  { unfold Fsspec.match_dir_file. rewrite strip_protocol.
    change ("/" +:+ f +:+ String c tl) with (String PyStr.slash (f +:+ String c tl)).
    rewrite (span_app_stop _ _ _ _ Hb slash_not_dir_char).
    rewrite Hne. change (PyStr.is_slash PyStr.slash) with true. cbn [andb].
    now rewrite (span_app_stop _ _ _ _ Hf Hfc). }
  rewrite H3. eexists. split; [reflexivity|]. repeat split.
Qed.

Lemma resolve_file_stops_at_space_witness :
  exists config,
    Fsspec.__post_init__ ("gs" +:+ "://" +:+ "bucket" +:+ "/" +:+ "a" +:+ String " " "b.txt")
      false ∅ = Ok config /\
    Fsspec.dir_path config = "bucket" /\
    Fsspec.file_path config
    = (if PyStr.str_all PyStr.is_slash "a" && Fsspec.at_end (String " " "b.txt")
       then EmptyString else "a") /\
    Fsspec.path_without_protocol config = "bucket" +:+ "/" +:+ "a" +:+ String " " "b.txt".
Proof.
  apply (proj1 (resolve_file_stops_at_space "gs" "bucket" "a" " " "b.txt" false ∅
                  ltac:(vm_compute; repeat constructor) eq_refl eq_refl eq_refl eq_refl)).
  reflexivity.
Defined.

Example file_part_at_white_space :
  Fsspec.__post_init__ "s3://bucket/my file.txt" false ∅
  = Ok (Fsspec.mkConfig "s3://bucket/my file.txt" false ∅ "s3" "bucket/my file.txt"
          "bucket" "my") /\
  Fsspec.__post_init__ "s3://bucket/a b://c" false ∅
  = Raise (ValueError "too many values to unpack (expected 2)").
Proof. split; reflexivity. Qed.

(** X8. Resolution is idempotent outside the empty-root case: when a
    location resolves to a directory other than the single space and to a
    file part that is empty or has a character other than the separator,
    the location put together again from protocol, directory and file
    resolves to the same protocol, directory and file. *)
Theorem resolve_idempotent (path : string) (recursive : bool) (kw : gmap string string)
    (config : Fsspec.SimpleFsspecConfig) :
  Fsspec.__post_init__ path recursive kw = Ok config ->
  Fsspec.dir_path config <> " " ->
  Fsspec.file_path config = EmptyString \/
    PyStr.str_all PyStr.is_slash (Fsspec.file_path config) = false ->
  exists config',
    Fsspec.__post_init__ (Design.reconstruct config) recursive kw = Ok config' /\
    Fsspec.protocol config' = Fsspec.protocol config /\
    Fsspec.dir_path config' = Fsspec.dir_path config /\
    Fsspec.file_path config' = Fsspec.file_path config /\
    Design.reconstruct config' = Design.reconstruct config.
Proof.
  intros H Hd Hf.
  destruct (post_init_cases _ _ _ _ H) as (p & rest & d & f & -> & Hpath & Hsep & Hp & Hc).
  cbn [Fsspec.dir_path Fsspec.file_path Fsspec.protocol] in *.
  unfold Design.reconstruct at 1.
  cbn [Fsspec.dir_path Fsspec.file_path Fsspec.protocol].
  assert (Hroot : PyStr.nonempty d = true -> PyStr.str_all Fsspec.is_dir_char d = true ->
                  PyStr.contains "://" d = false ->
                  exists config',
                    Fsspec.__post_init__ (p +:+ "://" +:+ d +:+ EmptyString) recursive kw
                      = Ok config' /\
                    Fsspec.protocol config' = p /\ Fsspec.dir_path config' = d /\
                    Fsspec.file_path config' = EmptyString /\
                    Design.reconstruct config' = p +:+ "://" +:+ d +:+ EmptyString).
  { intros Hn Hdc Hds.
    pose proof (post_init_root_only p d EmptyString EmptyString recursive kw
                  Hp Hn Hdc eq_refl eq_refl) as G.
    rewrite !append_empty_r in G. rewrite append_empty_r.
    eexists. split; [exact (G Hds)|]. repeat split.
    unfold Design.reconstruct. cbn. now rewrite append_empty_r. }
  destruct Hc as [(_ & -> & _)|[(-> & seps & e & -> & Hn & Hdc & _)|
                                (tl & -> & Hn & Hdc & Hfc & _)]].
  - contradiction.
  - cbn [PyStr.nonempty]. apply Hroot; try assumption. now apply contains_prefix in Hsep.
  - destruct f as [|x f].
    + cbn [PyStr.nonempty]. apply Hroot; try assumption. now apply contains_prefix in Hsep.
    + cbn [PyStr.nonempty]. destruct Hf as [Hf|Hf]; [discriminate|].
      assert (Hsep' : PyStr.contains "://" (d +:+ "/" +:+ String x f) = false).
      { apply contains_prefix with (b := tl). now rewrite !append_assoc. }
      pose proof (post_init_dir_file p d (String x f) recursive kw Hp Hn Hdc Hfc Hf Hsep') as G.
      eexists. split; [exact G|]. repeat split.
Qed.

Lemma resolve_idempotent_witness :
  exists config',
    Fsspec.__post_init__ (Design.reconstruct Scenario.out_config) false ∅ = Ok config' /\
    Fsspec.protocol config' = Fsspec.protocol Scenario.out_config /\
    Fsspec.dir_path config' = Fsspec.dir_path Scenario.out_config /\
    Fsspec.file_path config' = Fsspec.file_path Scenario.out_config /\
    Design.reconstruct config' = Design.reconstruct Scenario.out_config.
Proof.
  apply (resolve_idempotent "s3://bucket/out/" false ∅ Scenario.out_config).
  - reflexivity.
  - discriminate.
  - right. reflexivity.
Defined.

(** ** More on the local paths of a document *)

Section PathFacts.

Import PyStr.

Lemma split_cons_sep (a : ascii) (s : string) :
  split (String a s) (String a EmptyString)
  = EmptyString :: split s (String a EmptyString).
Proof.
  unfold split. cbn [split_from startswith String.length Nat.pred].
  rewrite Ascii.eqb_refl. cbn [andb].
  now destruct (split_from (String a EmptyString) O s).
Qed.

Lemma split_cons_other (a c : ascii) (s : string) :
  Ascii.eqb a c = false ->
  split (String c s) (String a EmptyString)
  = match split s (String a EmptyString) with
    | h :: t => String c h :: t
    | [] => [String c EmptyString]
    end.
Proof.
  intros Hc. unfold split. cbn [split_from startswith]. rewrite Hc. cbn [andb].
  now destruct (split_from (String a EmptyString) O s).
Qed.

Lemma split_nonempty (s sep : string) : split s sep <> [].
Proof. unfold split. now destruct (split_from sep O s). Qed.

(** Text without separator put after a string goes to its last piece. *)
Lemma split_app_last (a : ascii) (r t : string) :
  contains (String a EmptyString) t = false ->
  split (r +:+ t) (String a EmptyString)
  = removelast (split r (String a EmptyString))
      ++ [List.last (split r (String a EmptyString)) EmptyString +:+ t].
Proof.
  intros Ht. induction r as [|c r IH].
  - cbn [String.append]. unfold split at 1. now rewrite (split_from_absent _ _ Ht).
  - cbn [String.append]. destruct (Ascii.eqb a c) eqn:Ec.
    + apply Ascii.eqb_eq in Ec. subst c. rewrite !split_cons_sep, IH.
      pose proof (split_nonempty r (String a EmptyString)) as Hne.
      destruct (split r (String a EmptyString)) as [|h l]; [contradiction|]. reflexivity.
    + rewrite !(split_cons_other _ _ _ Ec), IH.
      pose proof (split_nonempty r (String a EmptyString)) as Hne.
      destruct (split r (String a EmptyString)) as [|h [|x l]]; [contradiction| |]; reflexivity.
Qed.

(** The last piece of a string is what follows its last separator. *)
Lemma split_last_piece (a : ascii) (pre tl : string) :
  contains (String a EmptyString) tl = false ->
  List.last (split (pre +:+ String a tl) (String a EmptyString)) EmptyString = tl.
Proof.
  intros Ht.
  enough (exists l, l <> [] /\
            split (pre +:+ String a tl) (String a EmptyString) = l ++ [tl])
    as (l & _ & ->) by apply last_last.
  induction pre as [|c pre (l & Hl & IH)].
  - exists [EmptyString]. split; [discriminate|]. cbn [String.append].
    rewrite split_cons_sep. unfold split. now rewrite (split_from_absent _ _ Ht).
  - cbn [String.append]. destruct (Ascii.eqb a c) eqn:Ec.
    + apply Ascii.eqb_eq in Ec. subst c. rewrite split_cons_sep, IH.
      exists (EmptyString :: l). split; [discriminate | reflexivity].
    + rewrite (split_cons_other _ _ _ Ec), IH. destruct l as [|h l]; [contradiction|].
      exists (String c h :: l). split; [discriminate | reflexivity].
Qed.

Lemma append_inv_tail (a b t : string) : a +:+ t = b +:+ t -> a = b.
Proof.
  revert b. induction a as [|x a IH]; intros [|y b] H; cbn [String.append] in H.
  - reflexivity.
  - exfalso. apply (f_equal String.length) in H.
    cbn [String.length] in H. rewrite length_append in H. lia.
  - exfalso. apply (f_equal String.length) in H.
    cbn [String.length] in H. rewrite length_append in H. lia.
  - injection H as -> H. now rewrite (IH b H).
Qed.

Lemma filter_keep_all (l : list string) :
  forallb PurePath.keep_component l = true ->
  filter (fun x => Is_true (PurePath.keep_component x)) l = l.
Proof.
  induction l as [|x l IH]; [reflexivity|]. cbn [forallb]. intros H.
  apply andb_true_iff in H as [Hx Hl]. rewrite filter_cons.
  destruct (decide (Is_true (PurePath.keep_component x))) as [_|N].
  - now rewrite (IH Hl).
  - rewrite Hx in N. now exfalso; apply N.
Qed.

(** A path string in normal form is parsed into its pieces, with no
    root. *)
Lemma of_string_normal (s : string) :
  PurePath.is_normal s = true ->
  PurePath.of_string s = PurePath.mk EmptyString (split s "/").
Proof.
  unfold PurePath.is_normal. intros H. unfold PurePath.of_string, PurePath.splitroot.
  destruct s as [|c s]; [discriminate|].
  destruct (is_slash c) eqn:Ec.
  - apply Ascii.eqb_eq in Ec. subst c.
    change "/" with (String slash EmptyString) in H.
    rewrite split_cons_sep in H. discriminate.
  - cbn [span]. rewrite Ec. cbn [String.length]. now rewrite (filter_keep_all _ H).
Qed.

Lemma truediv_normal (a : PurePath.t) (s : string) :
  PurePath.is_normal s = true ->
  PurePath.truediv a s = PurePath.mk (PurePath.root a) (PurePath.parts a ++ split s "/").
Proof.
  intros H. unfold PurePath.truediv. now rewrite (of_string_normal _ H).
Qed.

(** Joining a path with strings in normal form is injective in the
    string. *)
Lemma truediv_normal_inj (a : PurePath.t) (s1 s2 : string) :
  PurePath.is_normal s1 = true ->
  PurePath.is_normal s2 = true ->
  PurePath.truediv a s1 = PurePath.truediv a s2 ->
  s1 = s2.
Proof.
  intros H1 H2 H. rewrite (truediv_normal _ _ H1), (truediv_normal _ _ H2) in H.
  injection H as H. apply app_inv_head in H.
  rewrite <- (join_split s1 "/" eq_refl), <- (join_split s2 "/" eq_refl). now rewrite H.
Qed.

Lemma keep_component_app (x t : string) :
  PurePath.keep_component x = true -> PurePath.keep_component (x +:+ t) = true.
Proof.
  unfold PurePath.keep_component. intros H. apply andb_true_iff in H as [Hn Hd].
  destruct x as [|c x]; [discriminate|]. cbn [String.append nonempty andb].
  apply negb_true_iff in Hd. apply negb_true_iff.
  apply String.eqb_neq in Hd. apply String.eqb_neq. intros E.
  apply Hd. injection E as -> E. destruct x; [reflexivity | discriminate].
Qed.

Lemma forallb_app_last (f : string -> bool) (l : list string) (x : string) :
  l <> [] -> forallb f l = true -> f (List.last l EmptyString +:+ x) = true ->
  forallb f (removelast l ++ [List.last l EmptyString +:+ x]) = true.
Proof.
  intros Hne Hall Hx. induction l as [|y l IH]; [contradiction|].
  destruct l as [|z l].
  - cbn [removelast List.last app forallb] in *. now rewrite Hx.
  - cbn [forallb] in Hall. apply andb_true_iff in Hall as [Hy Hl].
    change (removelast (y :: z :: l)) with (y :: removelast (z :: l)).
    change (List.last (y :: z :: l) EmptyString) with (List.last (z :: l) EmptyString) in *.
    cbn [app forallb]. rewrite Hy. cbn [andb]. apply IH; [discriminate | exact Hl | exact Hx].
Qed.

Lemma forallb_last (f : string -> bool) (l : list string) :
  l <> [] -> forallb f l = true -> f (List.last l EmptyString) = true.
Proof.
  intros Hne Hall. induction l as [|y l IH]; [contradiction|].
  cbn [forallb] in Hall. apply andb_true_iff in Hall as [Hy Hl].
  destruct l as [|z l]; [exact Hy|]. apply IH; [discriminate | exact Hl].
Qed.

(** A normal form stays one when text without separator is put after
    it. *)
Lemma is_normal_app (r t : string) :
  contains "/" t = false ->
  PurePath.is_normal r = true -> PurePath.is_normal (r +:+ t) = true.
Proof.
  intros Ht Hr. unfold PurePath.is_normal in *.
  change "/" with (String slash EmptyString) in *. rewrite (split_app_last _ _ _ Ht).
  apply forallb_app_last; [apply split_nonempty | exact Hr |].
  apply keep_component_app. apply forallb_last; [apply split_nonempty | exact Hr].
Qed.

End PathFacts.

Section RelativePaths.

Import PyStr Fsspec.

(** The relative path of an object below the directory, when the
    directory and its separator do not occur again in it. *)
Lemma relative_path_below (rc : ReadConfig) (pc : PartitionConfig)
    (cfg : SimpleFsspecConfig) (r : string) :
  contains (dir_path cfg +:+ "/") r = false ->
  relative_path (mkDoc rc pc cfg (dir_path cfg +:+ "/" +:+ r)) = r.
Proof.
  intros H. unfold relative_path. cbn [remote_file_path connector_config].
  rewrite <- append_assoc. apply replace_leading; [|exact H].
  now destruct (dir_path cfg).
Qed.

Lemma of_string_rooted (x : string) :
  nonempty (PurePath.root (PurePath.of_string (String slash x))) = true.
Proof.
  unfold PurePath.of_string, PurePath.splitroot. cbn [span].
  change (is_slash slash) with true. cbn iota.
  destruct (span is_slash x) as [a b]. cbn [String.length].
  destruct (String.length a) as [|[|n]]; reflexivity.
Qed.

Lemma truediv_rooted (a : PurePath.t) (x : string) :
  PurePath.truediv a (String slash x) = PurePath.of_string (String slash x).
Proof. unfold PurePath.truediv. now rewrite of_string_rooted. Qed.

End RelativePaths.

(** X9. An object whose key starts with a separator is mapped outside the
    configured directories: its download path and its output path are
    rooted paths made from the key alone, whatever the download and
    output directories are. *)
Theorem rooted_key_leaves_local_dirs (rc : Fsspec.ReadConfig) (pc : Fsspec.PartitionConfig)
    (cfg : Fsspec.SimpleFsspecConfig) (x : string) :
  PyStr.contains (Fsspec.dir_path cfg +:+ "/") (String PyStr.slash x) = false ->
  let doc := Fsspec.mkDoc rc pc cfg (Fsspec.dir_path cfg +:+ "/" +:+ String PyStr.slash x) in
  Fsspec._tmp_download_file doc = PurePath.of_string (String PyStr.slash x) /\
  Fsspec._output_filename doc = PurePath.of_string (String PyStr.slash x +:+ ".json") /\
  PyStr.nonempty (PurePath.root (Fsspec._tmp_download_file doc)) = true /\
  PyStr.nonempty (PurePath.root (Fsspec._output_filename doc)) = true.
Proof.
  intros H doc.
  assert (E : Fsspec.relative_path doc = String PyStr.slash x)
    by (now apply relative_path_below).
  unfold Fsspec._tmp_download_file, Fsspec._output_filename. rewrite E.
  change (String PyStr.slash x +:+ ".json") with (String PyStr.slash (x +:+ ".json")).
  rewrite !truediv_rooted. repeat split; apply of_string_rooted.
Qed.

Lemma rooted_key_leaves_local_dirs_witness :
  Fsspec._tmp_download_file (Scenario.doc_at ("bucket" +:+ "/" +:+ String PyStr.slash "etc/x"))
    = PurePath.of_string (String PyStr.slash "etc/x") /\
  Fsspec._output_filename (Scenario.doc_at ("bucket" +:+ "/" +:+ String PyStr.slash "etc/x"))
    = PurePath.of_string (String PyStr.slash "etc/x" +:+ ".json") /\
  PyStr.nonempty (PurePath.root
    (Fsspec._tmp_download_file
       (Scenario.doc_at ("bucket" +:+ "/" +:+ String PyStr.slash "etc/x")))) = true /\
  PyStr.nonempty (PurePath.root
    (Fsspec._output_filename
       (Scenario.doc_at ("bucket" +:+ "/" +:+ String PyStr.slash "etc/x")))) = true.
Proof.
  apply (rooted_key_leaves_local_dirs Scenario.read_config Scenario.partition_config
           Scenario.bucket_config "etc/x").
  reflexivity.
Defined.

(** X10. Two objects below the directory whose keys are in normal form
    (no empty component, no single dot) and do not hold the directory
    followed by a separator get different download paths and different
    output paths as soon as the keys differ. *)
Theorem local_paths_distinct_for_normal_keys (rc : Fsspec.ReadConfig)
    (pc : Fsspec.PartitionConfig) (cfg : Fsspec.SimpleFsspecConfig) (r1 r2 : string) :
  PyStr.contains (Fsspec.dir_path cfg +:+ "/") r1 = false ->
  PyStr.contains (Fsspec.dir_path cfg +:+ "/") r2 = false ->
  PurePath.is_normal r1 = true ->
  PurePath.is_normal r2 = true ->
  r1 <> r2 ->
  Fsspec._tmp_download_file (Fsspec.mkDoc rc pc cfg (Fsspec.dir_path cfg +:+ "/" +:+ r1))
  <> Fsspec._tmp_download_file (Fsspec.mkDoc rc pc cfg (Fsspec.dir_path cfg +:+ "/" +:+ r2)) /\
  Fsspec._output_filename (Fsspec.mkDoc rc pc cfg (Fsspec.dir_path cfg +:+ "/" +:+ r1))
  <> Fsspec._output_filename (Fsspec.mkDoc rc pc cfg (Fsspec.dir_path cfg +:+ "/" +:+ r2)).
Proof.
  intros H1 H2 N1 N2 Hne.
  unfold Fsspec._tmp_download_file, Fsspec._output_filename.
  rewrite !relative_path_below by assumption.
  cbn [Fsspec.read_config Fsspec.partition_config].
  split; intros E.
  - apply Hne. now apply truediv_normal_inj in E.
  - apply truediv_normal_inj in E; try (apply is_normal_app; [reflexivity | assumption]).
    apply Hne. now apply append_inv_tail in E.
Qed.

Lemma local_paths_distinct_for_normal_keys_witness :
  Fsspec._tmp_download_file (Scenario.doc_at ("bucket" +:+ "/" +:+ "dir1/f.txt"))
  <> Fsspec._tmp_download_file (Scenario.doc_at ("bucket" +:+ "/" +:+ "dir2/f.txt")) /\
  Fsspec._output_filename (Scenario.doc_at ("bucket" +:+ "/" +:+ "dir1/f.txt"))
  <> Fsspec._output_filename (Scenario.doc_at ("bucket" +:+ "/" +:+ "dir2/f.txt")).
Proof.
  apply (local_paths_distinct_for_normal_keys Scenario.read_config Scenario.partition_config
           Scenario.bucket_config "dir1/f.txt" "dir2/f.txt");
    solve [ reflexivity | discriminate ].
Defined.

(** ** More on listing, initialising and writing *)

(** X11. In the shallow mode a root whose listing is not empty but has
    only entries of size zero or less passes [initialize], and
    [get_ingest_docs] then returns no document. *)
Theorem placeholders_pass_initialize (fs : Fsspec.AbstractFileSystem)
    (rc : Fsspec.ReadConfig) (cfg : Fsspec.SimpleFsspecConfig)
    (pc : Fsspec.PartitionConfig) (listing : list Fsspec.entry) :
  Fsspec.recursive cfg = false ->
  Fsspec.ls fs (Fsspec.path_without_protocol cfg) = Ok listing ->
  listing <> [] ->
  Forall (fun x => Fsspec.size x <= 0) listing ->
  Fsspec.initialize fs cfg = Ok tt /\
  Fsspec.get_ingest_docs fs rc cfg pc = Ok [].
Proof.
  intros Hr Hls Hne Hall. split.
  - unfold Fsspec.initialize. rewrite Hls. cbn [bind].
    destruct listing as [|x l]; [contradiction|].
    replace (Z.of_nat (List.length (x :: l)) <? 1) with false; [reflexivity|].
    symmetry. apply Z.ltb_ge. cbn [List.length]. lia.
  - unfold Fsspec.get_ingest_docs, Fsspec._list_files. rewrite Hr, Hls. cbn [negb bind].
    replace (filter (fun x => Fsspec.size x > 0) listing) with (@nil Fsspec.entry);
      [reflexivity|].
    clear -Hall. induction Hall as [|x l Hx _ IH]; [reflexivity|].
    rewrite filter_cons. destruct (decide (Fsspec.size x > 0)); [lia | exact IH].
Qed.

Lemma placeholders_pass_initialize_witness :
  Fsspec.initialize (Scenario.backend [Scenario.object "docs/sub/" 0] [])
    Scenario.out_config = Ok tt /\
  Fsspec.get_ingest_docs (Scenario.backend [Scenario.object "docs/sub/" 0] [])
    Scenario.read_config Scenario.out_config Scenario.partition_config = Ok [].
Proof.
  apply (placeholders_pass_initialize _ _ _ _ [Fsspec.mkEntry "docs/sub/" 0]).
  - reflexivity.
  - reflexivity.
  - discriminate.
  - repeat constructor. cbn. lia.
Defined.

(** X12. In the shallow mode, whenever [get_ingest_docs] returns at least
    one document, [initialize] on the same backend returns. *)
Theorem documents_imply_initialize (fs : Fsspec.AbstractFileSystem)
    (rc : Fsspec.ReadConfig) (cfg : Fsspec.SimpleFsspecConfig)
    (pc : Fsspec.PartitionConfig) (doc : Fsspec.FsspecIngestDoc)
    (docs : list Fsspec.FsspecIngestDoc) :
  Fsspec.recursive cfg = false ->
  Fsspec.get_ingest_docs fs rc cfg pc = Ok (doc :: docs) ->
  Fsspec.initialize fs cfg = Ok tt.
Proof.
  intros Hr H. unfold Fsspec.get_ingest_docs, Fsspec._list_files in H.
  rewrite Hr in H. cbn [negb] in H. unfold Fsspec.initialize.
  destruct (Fsspec.ls fs (Fsspec.path_without_protocol cfg)) as [listing|e];
    cbn [bind] in *; [|discriminate].
  destruct listing as [|x l]; [discriminate|].
  replace (Z.of_nat (List.length (x :: l)) <? 1) with false; [reflexivity|].
  symmetry. apply Z.ltb_ge. cbn [List.length]. lia.
Qed.

Lemma documents_imply_initialize_witness :
  Fsspec.initialize (Scenario.backend [Scenario.object "out/a.txt" 7] [])
    Scenario.out_config = Ok tt.
Proof.
  apply (documents_imply_initialize _ Scenario.read_config _ Scenario.partition_config
           (Fsspec.mkDoc Scenario.read_config Scenario.partition_config
              Scenario.out_config "out/a.txt") []).
  - reflexivity.
  - reflexivity.
Defined.

Section WriteTargets.

Import PyStr Fsspec.

Lemma join_nonempty (sep x : string) (l : list string) :
  nonempty x = true -> nonempty (join sep (x :: l)) = true.
Proof. destruct x; [discriminate|]. now destruct l. Qed.

Lemma keep_component_nonempty (x : string) :
  PurePath.keep_component x = true -> nonempty x = true.
Proof. unfold PurePath.keep_component. intros H. now apply andb_true_iff in H as [H _]. Qed.

Lemma of_string_parts_kept (s : string) :
  Forall (fun x => PurePath.keep_component x = true) (PurePath.parts (PurePath.of_string s)).
Proof.
  unfold PurePath.of_string. destruct (PurePath.splitroot s) as [r rel].
  cbn [PurePath.parts]. apply Forall_forall. intros x Hx.
  apply list_elem_of_filter in Hx as [Hx _]. now apply Is_true_true in Hx.
Qed.

Lemma truediv_parts_kept (a : PurePath.t) (s : string) :
  Forall (fun x => PurePath.keep_component x = true) (PurePath.parts a) ->
  Forall (fun x => PurePath.keep_component x = true)
    (PurePath.parts (PurePath.truediv a s)).
Proof.
  intros Ha. unfold PurePath.truediv.
  destruct (nonempty (PurePath.root (PurePath.of_string s))).
  - apply of_string_parts_kept.
  - cbn [PurePath.parts]. apply Forall_app. split; [exact Ha | apply of_string_parts_kept].
Qed.

(** The text of a path whose components are all kept is not empty. *)
Lemma to_string_nonempty (p : PurePath.t) :
  Forall (fun x => PurePath.keep_component x = true) (PurePath.parts p) ->
  nonempty (PurePath.to_string p) = true.
Proof.
  intros H. unfold PurePath.to_string.
  destruct (PurePath.root p) as [|c r]; destruct (PurePath.parts p) as [|x l];
    try reflexivity.
  cbn [String.append]. inversion H. subst.
  apply join_nonempty. now apply keep_component_nonempty.
Qed.

Lemma replace_nonempty (s old new : string) :
  nonempty s = true -> nonempty new = true -> nonempty (replace s old new) = true.
Proof.
  intros Hs Hn. destruct s as [|c s]; [discriminate|].
  destruct new as [|d new]; [discriminate|]. unfold replace.
  destruct old as [|a old].
  - reflexivity.
  - cbn [replace_from]. now destruct (startswith (String a old) (String c s)).
Qed.

Lemma last_char_nonempty (s : string) :
  nonempty s = true -> exists c, last_char s = Some c.
Proof.
  induction s as [|c s IH]; [discriminate|]. intros _. cbn [last_char].
  destruct s as [|d s]; [eauto|]. now apply IH.
Qed.

(** With a non-empty destination root, the remote path of every document
    is computed. *)
Lemma s3_output_path_returns (cfg : SimpleFsspecConfig) (doc : FsspecIngestDoc) :
  nonempty (path cfg) = true -> exists rpath, s3_output_path cfg doc = Ok rpath.
Proof.
  intros Hp. unfold s3_output_path.
  destruct (last_char_nonempty _ Hp) as [c ->].
  assert (Hn : nonempty (replace (PurePath.to_string (_output_filename doc))
                           (output_dir (partition_config doc)) (path cfg)) = true).
  { apply replace_nonempty; [|exact Hp]. apply to_string_nonempty.
    unfold _output_filename. apply truediv_parts_kept. apply of_string_parts_kept. }
  destruct (replace _ _ _) as [|c0 rest]; [discriminate|]. eauto.
Qed.

Lemma write_from_raises (fs : AbstractFileSystem) (cfg : SimpleFsspecConfig)
    (docs : list FsspecIngestDoc) (acc ups : list (string * string)) (e : exn) :
  nonempty (path cfg) = true ->
  write_from fs cfg docs acc = (Raise e, ups) ->
  exists doc rpath,
    doc ∈ docs /\ s3_output_path cfg doc = Ok rpath /\
    put_file fs (PurePath.to_string (_output_filename doc)) rpath = Raise e.
Proof.
  intros Hp. revert acc. induction docs as [|d docs IH]; intros acc H; [discriminate|].
  cbn [write_from] in H. destruct (s3_output_path_returns cfg d Hp) as [rpath Hr].
  rewrite Hr in H.
  destruct (put_file fs (PurePath.to_string (_output_filename d)) rpath) as [[]|e'] eqn:Ep.
  - destruct (IH _ H) as (doc & rp & Hin & H1 & H2).
    exists doc, rp. repeat split; try assumption. now apply list_elem_of_further.
  - inversion H. subst e'. exists d, rpath. repeat split; try assumption.
    apply list_elem_of_here.
Qed.

End WriteTargets.

(** X13. With a destination configuration that [__post_init__] returned,
    [write] computes a remote path for every document, so that it raises
    only what [put_file] raised for one of the documents: no index error
    comes from the path computation. *)
Theorem write_raises_only_backend_errors (path : string) (recursive : bool)
    (kw : gmap string string) (cfg : Fsspec.SimpleFsspecConfig)
    (fs : Fsspec.AbstractFileSystem) :
  Fsspec.__post_init__ path recursive kw = Ok cfg ->
  (forall doc, exists rpath, Fsspec.s3_output_path cfg doc = Ok rpath) /\
  (forall docs e ups,
      Fsspec.write fs cfg docs = (Raise e, ups) ->
      exists doc rpath,
        doc ∈ docs /\ Fsspec.s3_output_path cfg doc = Ok rpath /\
        Fsspec.put_file fs (PurePath.to_string (Fsspec._output_filename doc)) rpath
        = Raise e).
Proof.
  intros H.
  assert (Hp : PyStr.nonempty (Fsspec.path cfg) = true).
  { destruct (post_init_cases _ _ _ _ H) as (p & rest & d & f & -> & -> & _ & Hp & _).
    cbn [Fsspec.path]. destruct p; [|reflexivity]. reflexivity. }
  split.
  - intros doc. now apply s3_output_path_returns.
  - intros docs e ups Hw. now apply (write_from_raises fs cfg docs [] ups e Hp).
Qed.

Lemma write_raises_only_backend_errors_witness :
  exists rpath,
    Fsspec.s3_output_path Scenario.out_config (Scenario.doc_at "bucket/a.txt") = Ok rpath.
Proof.
  apply (proj1 (write_raises_only_backend_errors "s3://bucket/out/" false ∅
                  Scenario.out_config (Scenario.backend [] []) eq_refl)).
Defined.

(** ** More on OneDrive listings and documents *)

Section DriveFacts.

Import OneDrive.

(** Induction on a drive item, with the property known of its
    children. *)
Lemma DriveItem_children_ind (P : DriveItem -> Prop) :
  (forall n p f fo cs, Forall P cs -> P (mkItem n p f fo cs)) ->
  forall d, P d.
Proof.
  intros H. fix IH 1. intros [n p f fo cs]. apply H.
  induction cs as [|c cs IHcs]; constructor; [apply IH | exact IHcs].
Qed.

(** The listing of an item, with the walk through its folders written
    with [flat_map]. *)
Lemma list_objects_unfold (folder : DriveItem) (recursive : bool) :
  _list_objects folder recursive
  = List.filter is_file (children folder)
    ++ (if recursive
        then flat_map (fun d => if is_folder d then _list_objects d recursive else [])
               (children folder)
        else []).
Proof.
  destruct folder as [n p f fo cs]. cbn [_list_objects children].
  destruct recursive; cbn [negb]; [|now rewrite app_nil_r].
  f_equal. induction cs as [|c cs IH]; [reflexivity|].
  cbn [flat_map]. rewrite <- IH. now destruct (is_folder c).
Qed.

Lemma listed_sound (recursive : bool) (folder : DriveItem) :
  forall d, d ∈ _list_objects folder recursive -> Design.listed_below recursive folder d.
Proof.
  induction folder as [n p f fo cs IH] using DriveItem_children_ind. intros d Hd.
  rewrite list_objects_unfold in Hd. cbn [children] in Hd.
  apply elem_of_app in Hd as [Hd|Hd].
  - apply list_elem_of_In, filter_In in Hd as [Hin Hf].
    apply Design.listed_child; [now apply list_elem_of_In | exact Hf].
  - destruct recursive; [|now apply elem_of_nil in Hd].
    apply list_elem_of_In, in_flat_map in Hd as (sub & Hsub & Hd).
    destruct (is_folder sub) eqn:Es; [|contradiction].
    apply Design.listed_nested with sub; try reflexivity; try assumption.
    + now apply list_elem_of_In.
    + rewrite Forall_forall in IH. apply IH; [|now apply list_elem_of_In].
      now apply list_elem_of_In.
Qed.

Lemma listed_complete (recursive : bool) (folder d : DriveItem) :
  Design.listed_below recursive folder d -> d ∈ _list_objects folder recursive.
Proof.
  induction 1 as [folder d Hin Hf | folder sub d Hr Hin Hs _ IH];
    rewrite list_objects_unfold; apply elem_of_app.
  - left. apply list_elem_of_In, filter_In. split; [now apply list_elem_of_In | exact Hf].
  - right. subst recursive. apply list_elem_of_In, in_flat_map.
    exists sub. split; [now apply list_elem_of_In|]. rewrite Hs. now apply list_elem_of_In.
Qed.

Lemma listed_is_file (recursive : bool) (folder d : DriveItem) :
  Design.listed_below recursive folder d -> is_file d = true.
Proof. induction 1; assumption. Qed.

End DriveFacts.

(** X14. [_list_objects] returns exactly the files among the children of
    the folder and, when recursive, the files reached through the
    children that are folders; every item it returns is a file, and an
    item that is neither file nor folder is passed over with all that is
    below it. *)
Theorem list_objects_reaches_files (recursive : bool) (folder d : OneDrive.DriveItem) :
  (d ∈ OneDrive._list_objects folder recursive <-> Design.listed_below recursive folder d) /\
  (d ∈ OneDrive._list_objects folder recursive -> OneDrive.is_file d = true) /\
  (d ∈ OneDrive._list_objects folder false <-> 
     d ∈ OneDrive.children folder /\ OneDrive.is_file d = true).
Proof.
  split; [|split].
  - split; [apply listed_sound | apply listed_complete].
  - intros H. apply listed_sound in H. now apply listed_is_file in H.
  - rewrite list_objects_unfold, app_nil_r. split.
    + intros H. apply list_elem_of_In, filter_In in H as [H1 H2].
      split; [now apply list_elem_of_In | exact H2].
    + intros [H1 H2]. apply list_elem_of_In, filter_In.
      split; [now apply list_elem_of_In | exact H2].
Qed.

Lemma list_objects_reaches_files_witness :
  OneDrive.is_file (OneDrive.mkItem "q1.pdf" "/drive/root:/reports" true false []) = true.
Proof.
  apply (proj1 (proj2 (list_objects_reaches_files true (OneDrive.drive_root Scenario.drive)
                         (OneDrive.mkItem "q1.pdf" "/drive/root:/reports" true false [])))).
  apply list_elem_of_In. simpl. tauto.
Defined.

Section DocumentFacts.

Import PyStr OneDrive.

Variable EXT_TO_FILETYPE : list string.
Variable resolve : PurePath.t -> PurePath.t.

(** What [__post_init__] sets when it returns. *)
Lemma post_init_fields (sc : StandardConnectorConfig) (cfg : SimpleOneDriveConfig)
    (fname fpath : string) (doc : OneDriveIngestDoc) :
  __post_init__ EXT_TO_FILETYPE resolve sc cfg fname fpath = Ok doc ->
  standard_config doc = sc /\ config doc = cfg /\
  file_name doc = fname /\ file_path doc = fpath /\
  ext doc = ext_of fname /\ nonempty (ext doc) = true /\
  server_relative_path doc = fpath +:+ "/" +:+ fname /\
  download_filepath doc = resolve (PurePath.truediv (self_download_dir doc) fname) /\
  output_filepath doc
  = resolve (PurePath.truediv (self_output_dir doc)
               (drop_last (String.length (ext doc)) fname +:+ ".json")).
Proof.
  unfold __post_init__.
  destruct (ext_of fname) as [|c e] eqn:E; cbn [nonempty negb]; [discriminate|].
  destruct (decide (String c e ∈ EXT_TO_FILETYPE)); [|discriminate].
  intros H. inversion H. cbn. repeat split.
Qed.

Lemma gen_ingest_doc_unfold (sc : StandardConnectorConfig) (cfg : SimpleOneDriveConfig)
    (file : DriveItem) (pre tl : string) :
  parent_reference_path file = pre +:+ String ":" tl ->
  contains ":" tl = false ->
  _gen_ingest_doc EXT_TO_FILETYPE resolve sc cfg file
  = match tl with
    | EmptyString => Raise (IndexError "string index out of range")
    | String c rest =>
        __post_init__ EXT_TO_FILETYPE resolve sc cfg (name file)
          (if is_slash c then rest else tl)
    end.
Proof.
  intros Hp Ht. unfold _gen_ingest_doc. rewrite Hp.
  change ":" with (String ":"%char EmptyString).
  now rewrite (split_last_piece _ _ _ Ht).
Qed.

End DocumentFacts.

(** X15. A file that sits directly under the root of the drive, whose
    parent reference path ends with the colon, makes [_gen_ingest_doc]
    raise an index error, and with it every [get_ingest_docs] that lists
    the file. *)
Theorem drive_root_file_raises (EXT_TO_FILETYPE : list string)
    (resolve : PurePath.t -> PurePath.t) (sc : OneDrive.StandardConnectorConfig)
    (cfg : OneDrive.SimpleOneDriveConfig) (file : OneDrive.DriveItem) (pre : string) :
  OneDrive.parent_reference_path file = pre +:+ ":" ->
  OneDrive._gen_ingest_doc EXT_TO_FILETYPE resolve sc cfg file
  = Raise (IndexError "string index out of range") /\
  (forall client root,
      OneDrive.listing_root client cfg = Ok root ->
      file ∈ OneDrive._list_objects root (OneDrive.recursive cfg) ->
      exists e, OneDrive.get_ingest_docs EXT_TO_FILETYPE resolve client sc cfg = Raise e).
Proof.
  intros Hp.
  assert (H : OneDrive._gen_ingest_doc EXT_TO_FILETYPE resolve sc cfg file
              = Raise (IndexError "string index out of range")).
  { now rewrite (gen_ingest_doc_unfold EXT_TO_FILETYPE resolve sc cfg file pre
                   EmptyString Hp eq_refl). }
  split; [exact H|]. intros client root Hroot Hin.
  unfold OneDrive.get_ingest_docs. rewrite Hroot. cbn [bind].
  now apply comprehension_raises with file (IndexError "string index out of range").
Qed.

Lemma drive_root_file_raises_witness :
  OneDrive._gen_ingest_doc Scenario.filetypes Scenario.no_resolve Scenario.standard_config
    Scenario.drive_config (OneDrive.mkItem "top.pdf" "/drive/root:" true false [])
  = Raise (IndexError "string index out of range").
Proof.
  apply (proj1 (drive_root_file_raises Scenario.filetypes Scenario.no_resolve
                  Scenario.standard_config Scenario.drive_config
                  (OneDrive.mkItem "top.pdf" "/drive/root:" true false [])
                  "/drive/root" eq_refl)).
Defined.

(** X16. The folder of a OneDrive document is what follows the last colon
    of the parent reference path of the file, without one leading
    separator; the path asked of the server is that folder, a separator
    and the name of the file. *)
Theorem document_folder_follows_last_colon (EXT_TO_FILETYPE : list string)
    (resolve : PurePath.t -> PurePath.t) (sc : OneDrive.StandardConnectorConfig)
    (cfg : OneDrive.SimpleOneDriveConfig) (file : OneDrive.DriveItem)
    (pre tl : string) (doc : OneDrive.OneDriveIngestDoc) :
  OneDrive.parent_reference_path file = pre +:+ String ":" tl ->
  PyStr.contains ":" tl = false ->
  OneDrive._gen_ingest_doc EXT_TO_FILETYPE resolve sc cfg file = Ok doc ->
  OneDrive.file_name doc = OneDrive.name file /\
  OneDrive.file_path doc
  = match tl with
    | String c rest => if PyStr.is_slash c then rest else tl
    | EmptyString => EmptyString
    end /\
  OneDrive.server_relative_path doc
  = OneDrive.file_path doc +:+ "/" +:+ OneDrive.name file.
Proof.
  intros Hp Ht H.
  rewrite (gen_ingest_doc_unfold EXT_TO_FILETYPE resolve sc cfg file pre tl Hp Ht) in H.
  destruct tl as [|c rest]; [discriminate|].
  apply post_init_fields in H as (_ & _ & Hn & Hf & _ & _ & Hs & _).
  rewrite Hn, Hf, Hs. repeat split.
Qed.

Lemma document_folder_follows_last_colon_witness :
  OneDrive.file_name Scenario.q1_document = "q1.pdf" /\
  OneDrive.file_path Scenario.q1_document = "reports" /\
  OneDrive.server_relative_path Scenario.q1_document
  = OneDrive.file_path Scenario.q1_document +:+ "/" +:+ "q1.pdf".
Proof.
  apply (document_folder_follows_last_colon Scenario.filetypes Scenario.no_resolve
           Scenario.standard_config Scenario.drive_config
           (OneDrive.mkItem "q1.pdf" "/drive/root:/reports" true false [])
           "/drive/root" "/reports" Scenario.q1_document eq_refl eq_refl eq_refl).
Defined.

(** X17. When [get_ingest_docs] returns, there is one document for each
    listed file, in the order of the listing, with the name of the file
    and the two configurations of the connector. *)
Theorem documents_follow_listing (EXT_TO_FILETYPE : list string)
    (resolve : PurePath.t -> PurePath.t) (client : OneDrive.GraphClient)
    (sc : OneDrive.StandardConnectorConfig) (cfg : OneDrive.SimpleOneDriveConfig)
    (docs : list OneDrive.OneDriveIngestDoc) :
  OneDrive.get_ingest_docs EXT_TO_FILETYPE resolve client sc cfg = Ok docs ->
  exists root,
    OneDrive.listing_root client cfg = Ok root /\
    map OneDrive.file_name docs
    = map OneDrive.name (OneDrive._list_objects root (OneDrive.recursive cfg)) /\
    Forall (fun doc => OneDrive.standard_config doc = sc /\ OneDrive.config doc = cfg) docs.
Proof.
  intros H. unfold OneDrive.get_ingest_docs in H.
  destruct (OneDrive.listing_root client cfg) as [root|]; cbn [bind] in H; [|discriminate].
  exists root. split; [reflexivity|].
  apply comprehension_returns in H.
  induction H as [|file doc files docs Hd _ [IH1 IH2]]; [split; [reflexivity | constructor]|].
  unfold OneDrive._gen_ingest_doc in Hd.
  destruct (List.last _ _) as [|c rest]; [discriminate|].
  apply post_init_fields in Hd as (Hsc & Hcfg & Hn & _).
  split.
  - cbn [map]. now rewrite Hn, IH1.
  - constructor; [now split | exact IH2].
Qed.

Lemma documents_follow_listing_witness :
  exists root,
    OneDrive.listing_root Scenario.small_drive Scenario.drive_config = Ok root /\
    map OneDrive.file_name [Scenario.q1_document]
    = map OneDrive.name (OneDrive._list_objects root
                           (OneDrive.recursive Scenario.drive_config)) /\
    Forall (fun doc => OneDrive.standard_config doc = Scenario.standard_config /\
                       OneDrive.config doc = Scenario.drive_config)
      [Scenario.q1_document].
Proof.
  apply (documents_follow_listing Scenario.filetypes Scenario.no_resolve
           Scenario.small_drive Scenario.standard_config Scenario.drive_config
           [Scenario.q1_document] eq_refl).
Defined.

Section ExtensionFacts.

Import PyStr.

Lemma substring_prefix (a b : string) :
  String.substring 0 (String.length a) (a +:+ b) = a.
Proof.
  induction a as [|c a IH]; cbn [String.length String.append].
  - now destruct b.
  - cbn [String.substring]. now rewrite IH.
Qed.

Lemma drop_last_app (a b : string) : drop_last (String.length b) (a +:+ b) = a.
Proof.
  unfold drop_last. rewrite length_append.
  replace (String.length a + String.length b - String.length b)%nat
    with (String.length a) by lia.
  apply substring_prefix.
Qed.

Lemma lstrip_dots_split (s : string) : exists dots, s = dots +:+ lstrip_dots s.
Proof.
  induction s as [|c s [dots IH]]; [now exists EmptyString|].
  cbn [lstrip_dots]. destruct (is_dot c).
  - exists (String c dots). cbn [String.append]. now rewrite <- IH.
  - now exists EmptyString.
Qed.

Lemma join_as_concat (sep h : string) (t : list string) :
  join sep (h :: t) = h +:+ join EmptyString (map (String.append sep) t).
Proof.
  revert h. induction t as [|x t IH]; intros h.
  - cbn. now rewrite append_empty_r.
  - change (join sep (h :: x :: t)) with (h +:+ sep +:+ join sep (x :: t)).
    rewrite (IH x). cbn [map]. f_equal.
    destruct t as [|y t].
    + cbn. now rewrite !append_empty_r.
    + cbn [map]. change (join EmptyString (?a :: ?b :: ?c))
        with (a +:+ EmptyString +:+ join EmptyString (b :: c)).
      cbn [String.append]. now rewrite append_assoc.
Qed.

(** A name is a stem followed by its joined suffixes. *)
Lemma name_ends_with_suffixes (p : PurePath.t) :
  exists stem,
    PurePath.name p = stem +:+ join EmptyString (PurePath.suffixes p).
Proof.
  unfold PurePath.suffixes. set (nm := PurePath.name p).
  destruct (last_char nm) as [c|]; [|exists nm; cbn; now rewrite append_empty_r].
  destruct (is_dot c); [exists nm; cbn; now rewrite append_empty_r|].
  destruct (lstrip_dots_split nm) as [dots Hd].
  pose proof (join_split (lstrip_dots nm) "." eq_refl) as Hj.
  pose proof (split_nonempty (lstrip_dots nm) ".") as Hne.
  destruct (split (lstrip_dots nm) ".") as [|h t]; [contradiction|].
  rewrite join_as_concat in Hj. cbn [List.tl].
  exists (dots +:+ h). rewrite append_assoc.
  replace (map (String dot) t) with (map (String.append ".") t); [|reflexivity].
  rewrite Hj. exact Hd.
Qed.

(** A file name without separator that has suffixes is the name of its
    path. *)
Lemma name_of_plain_file (s : string) :
  contains "/" s = false ->
  PurePath.suffixes (PurePath.of_string s) <> [] ->
  PurePath.name (PurePath.of_string s) = s.
Proof.
  intros Hs Hsfx.
  assert (E : PurePath.of_string s
              = PurePath.mk EmptyString
                  (filter (fun x => Is_true (PurePath.keep_component x)) [s])).
  { unfold PurePath.of_string, PurePath.splitroot.
    assert (Hsp : span is_slash s = (EmptyString, s)).
    { destruct s as [|c s]; [reflexivity|]. cbn [span].
      apply contains_cons in Hs as [Hc _]. cbn [startswith] in Hc.
      rewrite andb_true_r in Hc. unfold is_slash, slash. rewrite Ascii.eqb_sym.
      now rewrite Hc. }
    rewrite Hsp. cbn [String.length]. unfold split.
    now rewrite (split_from_absent _ _ Hs). }
  rewrite E in *. rewrite filter_cons, filter_nil in *.
  destruct (decide (Is_true (PurePath.keep_component s))); [reflexivity|].
  exfalso. apply Hsfx. reflexivity.
Qed.

End ExtensionFacts.

(** X18. For a file name without separator, the name is a stem followed
    by the extension the document records, and the output path is the
    output directory joined with that stem and [.json]: the whole joined
    extension is replaced. The download path is the download directory
    joined with the file name. *)
Theorem output_name_replaces_extension (EXT_TO_FILETYPE : list string)
    (resolve : PurePath.t -> PurePath.t) (sc : OneDrive.StandardConnectorConfig)
    (cfg : OneDrive.SimpleOneDriveConfig) (fname fpath : string)
    (doc : OneDrive.OneDriveIngestDoc) :
  PyStr.contains "/" fname = false ->
  OneDrive.__post_init__ EXT_TO_FILETYPE resolve sc cfg fname fpath = Ok doc ->
  exists stem,
    fname = stem +:+ OneDrive.ext doc /\
    OneDrive.output_filepath doc
    = resolve (PurePath.truediv (OneDrive.self_output_dir doc) (stem +:+ ".json")) /\
    OneDrive.download_filepath doc
    = resolve (PurePath.truediv (OneDrive.self_download_dir doc) fname).
Proof.
  intros Hs H.
  apply post_init_fields in H as (_ & _ & _ & _ & He & Hne & _ & Hd & Ho).
  destruct (name_ends_with_suffixes (PurePath.of_string fname)) as [stem Hstem].
  assert (Hsfx : PurePath.suffixes (PurePath.of_string fname) <> []).
  { intros E. unfold OneDrive.ext_of in He. rewrite E in He. rewrite He in Hne.
    discriminate. }
  rewrite (name_of_plain_file _ Hs Hsfx) in Hstem.
  fold (OneDrive.ext_of fname) in Hstem. rewrite <- He in Hstem.
  exists stem. split; [exact Hstem|]. split; [|exact Hd].
  rewrite Ho. rewrite Hstem at 1. now rewrite drop_last_app.
Qed.

Lemma output_name_replaces_extension_witness :
  exists stem,
    "q1.pdf" = stem +:+ OneDrive.ext Scenario.q1_document /\
    OneDrive.output_filepath Scenario.q1_document
    = Scenario.no_resolve
        (PurePath.truediv (OneDrive.self_output_dir Scenario.q1_document)
           (stem +:+ ".json")) /\
    OneDrive.download_filepath Scenario.q1_document
    = Scenario.no_resolve
        (PurePath.truediv (OneDrive.self_download_dir Scenario.q1_document) "q1.pdf").
Proof.
  apply (output_name_replaces_extension Scenario.filetypes Scenario.no_resolve
           Scenario.standard_config Scenario.drive_config "q1.pdf" "reports"
           Scenario.q1_document eq_refl eq_refl).
Defined.

(** ** Wikipedia documents *)

Section EndingFacts.

Import PyStr.

Lemma append_inv_head (a s1 s2 : string) : a +:+ s1 = a +:+ s2 -> s1 = s2.
Proof.
  induction a as [|c a IH]; cbn [String.append]; intros H; [exact H|].
  injection H as H. now apply IH.
Qed.

(** A run of [p] characters is not changed by text put after the string,
    when that text starts outside [p]. *)
Lemma span_app_after (p : ascii -> bool) (x s : string) :
  match s with EmptyString => false | String c _ => negb (p c) end = true ->
  span p (x +:+ s) = (fst (span p x), snd (span p x) +:+ s).
Proof.
  intros Hs. induction x as [|c x IH].
  - cbn [String.append span fst snd]. destruct s as [|d s]; [discriminate|].
    cbn [span]. apply negb_true_iff in Hs. now rewrite Hs.
  - cbn [String.append span]. destruct (p c); [|reflexivity].
    rewrite IH. now destruct (span p x).
Qed.

Lemma filter_keep_app (l : list string) (x : string) :
  PurePath.keep_component x = true ->
  filter (fun y => Is_true (PurePath.keep_component y)) (l ++ [x])
  = filter (fun y => Is_true (PurePath.keep_component y)) l ++ [x].
Proof.
  intros Hx. rewrite filter_app. f_equal. rewrite filter_cons, filter_nil.
  destruct (decide (Is_true (PurePath.keep_component x))) as [_|N]; [reflexivity|].
  rewrite Hx in N. now exfalso; apply N.
Qed.

(** An ending of a file name: no separator in it, not empty and not a
    single dot. Put after any text, it ends the last component of the
    path, and the components before are those of the text alone. *)
Lemma of_string_ending (x : string) :
  exists r pre lastp,
    forall t, contains "/" t = false -> nonempty t = true -> t <> "." ->
      PurePath.of_string (x +:+ t) = PurePath.mk r (pre ++ [lastp +:+ t]).
Proof.
  exists (fst (PurePath.splitroot x)),
         (filter (fun y => Is_true (PurePath.keep_component y))
            (removelast (split (snd (span is_slash x)) "/"))),
         (List.last (split (snd (span is_slash x)) "/") EmptyString).
  intros t Ht Hn Hd. unfold PurePath.of_string, PurePath.splitroot.
  assert (Hfirst : match t with EmptyString => false | String c _ => negb (is_slash c) end
                   = true).
  { destruct t as [|c t]; [discriminate|]. apply contains_cons in Ht as [Hc _].
    cbn [startswith] in Hc. rewrite andb_true_r in Hc. unfold is_slash, slash.
    rewrite Ascii.eqb_sym. now rewrite Hc. }
  rewrite (span_app_after _ _ _ Hfirst).
  destruct (span is_slash x) as [a b]. cbn [fst snd].
  change "/" with (String slash EmptyString) in *.
  assert (Hsplit := split_app_last slash b t Ht).
  assert (Hk : PurePath.keep_component
                 (List.last (split b (String slash EmptyString)) EmptyString +:+ t) = true).
  { unfold PurePath.keep_component. destruct t as [|c t]; [discriminate|].
    destruct (List.last _ _) as [|d l].
    - cbn [String.append nonempty andb]. apply negb_true_iff, String.eqb_neq. exact Hd.
    - cbn [String.append nonempty andb]. apply negb_true_iff, String.eqb_neq.
      intros E. injection E as _ E. now destruct l. }
  destruct (String.length a) as [|[|[|n]]]; cbv beta iota zeta; cbn [fst];
    rewrite Hsplit, (filter_keep_app _ _ Hk); reflexivity.
Qed.

(** Two different endings after the same text, joined to the same
    directory, give different paths. *)
Lemma truediv_endings_differ (a : PurePath.t) (x s1 s2 : string) :
  contains "/" s1 = false -> nonempty s1 = true -> s1 <> "." ->
  contains "/" s2 = false -> nonempty s2 = true -> s2 <> "." ->
  s1 <> s2 ->
  PurePath.truediv a (x +:+ s1) <> PurePath.truediv a (x +:+ s2).
Proof.
  intros H1 N1 D1 H2 N2 D2 Hne.
  destruct (of_string_ending x) as (r & pre & lastp & Hof).
  unfold PurePath.truediv. rewrite (Hof s1 H1 N1 D1), (Hof s2 H2 N2 D2).
  cbn [PurePath.root PurePath.parts].
  destruct (nonempty r); intros E; injection E as E.
  - apply app_inj_tail in E as [_ E]. now apply append_inv_head in E.
  - rewrite !app_assoc in E. apply app_inj_tail in E as [_ E].
    now apply append_inv_head in E.
Qed.

End EndingFacts.

(** X19. When the page is found, the three documents of an article have
    pairwise different output paths, and pairwise different download
    paths before these are resolved: the documents of one article never
    share a local file. *)
Theorem article_documents_do_not_collide
    (wikipedia_page : string -> bool -> result Wikipedia.WikipediaPage)
    (resolve : PurePath.t -> PurePath.t)
    (sc : OneDrive.StandardConnectorConfig) (cfg : Wikipedia.SimpleWikipediaConfig)
    (p : Wikipedia.WikipediaPage) (doc1 doc2 : Wikipedia.WikipediaIngestDoc) :
  wikipedia_page (Wikipedia.title cfg) (Wikipedia.auto_suggest cfg) = Ok p ->
  doc1 ∈ Wikipedia.get_ingest_docs sc cfg ->
  doc2 ∈ Wikipedia.get_ingest_docs sc cfg ->
  doc1 <> doc2 ->
  exists o1 o2 f1 f2,
    Wikipedia._output_filename wikipedia_page doc1 = Ok o1 /\
    Wikipedia._output_filename wikipedia_page doc2 = Ok o2 /\
    o1 <> o2 /\
    Wikipedia.filename wikipedia_page resolve doc1 = Ok (resolve f1) /\
    Wikipedia.filename wikipedia_page resolve doc2 = Ok (resolve f2) /\
    f1 <> f2.
Proof.
  intros Hp H1 H2 Hne.
  assert (Hdoc : forall d, d ∈ Wikipedia.get_ingest_docs sc cfg ->
                           exists c, d = Wikipedia.mkDoc sc cfg c).
  { intros d Hd. unfold Wikipedia.get_ingest_docs in Hd.
    repeat (apply elem_of_cons in Hd as [->|Hd]; [eauto|]). now apply elem_of_nil in Hd. }
  destruct (Hdoc _ H1) as [c1 ->]. destruct (Hdoc _ H2) as [c2 ->].
  assert (Hc : c1 <> c2) by (intros ->; now apply Hne).
  unfold Wikipedia._output_filename, Wikipedia.filename, Wikipedia.page.
  cbn [Wikipedia.config Wikipedia.standard_config Wikipedia.class]. rewrite Hp. cbn [bind].
  do 4 eexists. split; [reflexivity|]. split; [reflexivity|].
  split; [|split; [reflexivity|split; [reflexivity|]]].
  - rewrite <- !append_assoc.
    apply truediv_endings_differ;
      try (destruct c1; reflexivity); try (destruct c2; reflexivity);
      try (destruct c1; discriminate); try (destruct c2; discriminate).
    destruct c1, c2; try discriminate; now exfalso; apply Hc.
  - rewrite <- !append_assoc.
    apply truediv_endings_differ;
      try (destruct c1; reflexivity); try (destruct c2; reflexivity);
      try (destruct c1; discriminate); try (destruct c2; discriminate).
    destruct c1, c2; try discriminate; now exfalso; apply Hc.
Qed.

Lemma article_documents_do_not_collide_witness :
  exists o1 o2 f1 f2,
    Wikipedia._output_filename Scenario.encyclopedia
      (Wikipedia.mkDoc Scenario.standard_config Scenario.ada_config
         Wikipedia.WikipediaIngestTextDoc) = Ok o1 /\
    Wikipedia._output_filename Scenario.encyclopedia
      (Wikipedia.mkDoc Scenario.standard_config Scenario.ada_config
         Wikipedia.WikipediaIngestSummaryDoc) = Ok o2 /\
    o1 <> o2 /\
    Wikipedia.filename Scenario.encyclopedia Scenario.no_resolve
      (Wikipedia.mkDoc Scenario.standard_config Scenario.ada_config
         Wikipedia.WikipediaIngestTextDoc) = Ok (Scenario.no_resolve f1) /\
    Wikipedia.filename Scenario.encyclopedia Scenario.no_resolve
      (Wikipedia.mkDoc Scenario.standard_config Scenario.ada_config
         Wikipedia.WikipediaIngestSummaryDoc) = Ok (Scenario.no_resolve f2) /\
    f1 <> f2.
Proof.
  apply (article_documents_do_not_collide Scenario.encyclopedia Scenario.no_resolve
           Scenario.standard_config Scenario.ada_config Scenario.ada_page).
  - reflexivity.
  - apply list_elem_of_In. simpl. tauto.
  - apply list_elem_of_In. simpl. tauto.
  - discriminate.
Defined.

Example ada_text_file :
  Wikipedia.filename Scenario.encyclopedia Scenario.no_resolve
    (Wikipedia.mkDoc Scenario.standard_config Scenario.ada_config
       Wikipedia.WikipediaIngestTextDoc)
  = Ok (PurePath.of_string "tmp/Ada Lovelace-1187.txt").
Proof. reflexivity. Qed.

(** ** More on fetching *)

Section FetchBody.

Import PyStr Fsspec.


End FetchBody.



(** X21. A location in which [://] occurs again after the protocol, as in
    an object key that holds a URL, is rejected: the unpacking of the
    split finds more than two values. *)
Theorem location_with_second_scheme_rejected (p rest : string) (recursive : bool)
    (kw : gmap string string) :
  PyStr.str_all (fun c => negb (Ascii.eqb c ":")) p = true ->
  PyStr.contains "://" rest = true ->
  Fsspec.__post_init__ (p +:+ "://" +:+ rest) recursive kw
  = Raise (ValueError "too many values to unpack (expected 2)").
Proof.
  intros Hp Hr. unfold Fsspec.__post_init__.
  rewrite (split_colon_free_head _ _ Hp).
  pose proof (split_from_present "://" rest eq_refl Hr) as Hne.
  unfold PyStr.split. destruct (PyStr.split_from "://" O rest) as [h [|x t]];
    [now exfalso; apply Hne | reflexivity].
Qed.

Lemma location_with_second_scheme_rejected_witness :
  Fsspec.__post_init__ ("s3" +:+ "://" +:+ "bucket/http://example.org/a") false ∅
  = Raise (ValueError "too many values to unpack (expected 2)").
Proof. apply location_with_second_scheme_rejected; reflexivity. Defined.
